(** * Attendance routes (routes/attendance.py): a shallow embedding

    The Flask handlers of [routes/attendance.py] are embedded as pure
    functions from the committed database and the request to the committed
    database after the request and the HTTP response.

    - A table is the list of its rows in storage order, which is the order in
      which [Query.first()] and [Query.all()] see them.
    - A handler works on the session's view of the table; [db.session.commit()]
      makes that view the committed table and [db.session.rollback()] (or a
      return before any commit) leaves the committed table as it was.
    - Python exceptions are values of [exn]; a [try]/[except] is a [match] on
      a sum.
    - Request bodies are JSON objects.  A [date] may be any JSON value, and
      so may [attendances] and each of its elements; the other fields, when
      present, have the types the API gives them.
    - The store fails, if it does, at the commit; one reading of the clock
      stands for the readings of one request. *)

From Stdlib Require Import ZArith List Ascii String Bool Lia DecimalString.
Import ListNotations.
Open Scope string_scope.
Open Scope list_scope.
Open Scope Z_scope.

(** ** Python values and exceptions *)

Inductive exn :=
| KeyError (key : string)
| TypeError (msg : string)
| AttributeError (msg : string)
| StorageError (msg : string).

(** [str(e)]: a [KeyError] prints the repr of its key. *)
Definition str_exn (e : exn) : string :=
  match e with
  | KeyError k => ("'" ++ k ++ "'")%string
  | TypeError m => m
  | AttributeError m => m
  | StorageError m => m
  end.

(** [str(n)] for an integer, as an f-string formats it. *)
Definition str_int (n : Z) : string := NilZero.string_of_int (Z.to_int n).

Definition str_len {A} (l : list A) : string := str_int (Z.of_nat (List.length l)).

(** ** Data model *)

Record date := mkDate { year : Z; month : Z; day : Z }.

Definition date_eqb (a b : date) : bool :=
  (year a =? year b) && (month a =? month b) && (day a =? day b).

Record Attendance := mkAttendance {
  id : Z;
  student_id : Z;
  class_id : Z;
  att_date : date;
  present : bool;
  notes : option string;
  recorded_by : Z;
  recorded_at : Z
}.

Record Db := mkDb {
  attendances : list Attendance;
  students : list Z;   (* primary keys of the Student table *)
  classes : list Z     (* primary keys of the Class table *)
}.

(** Modelled from the spec: [Attendance.to_dict] lives in models/attendance.py,
    which is not part of the sources at hand.  "Each attendance record
    serializes to an object containing its identity and all attributes".  An
    object that was added to the session and not flushed yet has neither
    its identity nor its [recorded_at], which the store sets when it writes
    the row: both are [None] in its serialization. *)
Record attendance_dict := mkDict {
  d_id : option Z;
  d_student_id : Z;
  d_class_id : Z;
  d_date : date;
  d_present : bool;
  d_notes : option string;
  d_recorded_by : Z;
  d_recorded_at : option Z
}.

Definition to_dict (a : Attendance) : attendance_dict :=
  mkDict (Some (id a)) (student_id a) (class_id a) (att_date a)
         (present a) (notes a) (recorded_by a) (Some (recorded_at a)).

Definition to_dict_pending (a : Attendance) : attendance_dict :=
  mkDict None (student_id a) (class_id a) (att_date a)
         (present a) (notes a) (recorded_by a) None.

(** ** The persistence layer

    Modelled from the spec: [db], [Student], [Class] and the [Attendance]
    model come from the models package, which is not part of the sources at
    hand.  Section 6 of the specification: [findById] for existence checks,
    [findOne] over (student_id, class_id, date), [stage] and [commitAll].
    A query sees what the session staged before it (the session flushes
    before it queries).  A new record gets its key from the store and its
    [recorded_at] from the column's default, the time of its creation
    (section 3: "set on every create/update"). *)

Definition query_get (table : list Z) (pk : Z) : bool :=
  existsb (Z.eqb pk) table.

(** [filter_by(student_id=.., class_id=.., date=..)] *)
Definition filter_by_triple (sid cid : Z) (d : date) (a : Attendance) : bool :=
  (student_id a =? sid) && (class_id a =? cid) && date_eqb (att_date a) d.

Definition first (p : Attendance -> bool) (rows : list Attendance)
  : option Attendance := find p rows.

(** Assignment to attributes of the object a query returned: the row the query
    found is the one that changes. *)
Fixpoint update_first (p : Attendance -> bool) (f : Attendance -> Attendance)
         (rows : list Attendance) : list Attendance :=
  match rows with
  | [] => []
  | a :: rest => if p a then f a :: rest else a :: update_first p f rest
  end.

(** The key the store gives a new row: one more than the largest in use. *)
Definition fresh_id (rows : list Attendance) : Z :=
  1 + fold_right (fun a m => Z.max (id a) m) 0 rows.

(** [db.session.add]: the new row goes after the existing ones. *)
Definition session_add (rows : list Attendance) (a : Attendance)
  : list Attendance := rows ++ [a].

Definition set_presence (p : bool) (n : option string) (by_ at_ : Z)
           (a : Attendance) : Attendance :=
  mkAttendance (id a) (student_id a) (class_id a) (att_date a) p n by_ at_.

Definition set_stamp (by_ at_ : Z) (a : Attendance) : Attendance :=
  mkAttendance (id a) (student_id a) (class_id a) (att_date a)
               (present a) (notes a) by_ at_.

(** ** Requests and responses *)

(** A JSON value that is not an object. *)
Inductive non_object :=
| JNull
| JBool (b : bool)
| JNumber (n : Z)
| JString (s : string)
| JArray.

(** The name Python gives the type of the decoded value. *)
Definition type_name (v : non_object) : string :=
  match v with
  | JNull => "NoneType"
  | JBool _ => "bool"
  | JNumber _ => "int"
  | JString _ => "str"
  | JArray => "list"
  end.

(** One element of the [attendances] array. *)
Inductive entry :=
| EObject (e_student_id : option Z) (e_present : option bool)
          (e_notes : option string)
| EOther (v : non_object).

(** A JSON value that is not a string. *)
Inductive non_string :=
| TNull
| TBool (b : bool)
| TNumber (n : Z)
| TArray
| TObject.

(** The value of a field that the API means to be a string. *)
Inductive text_value :=
| Text (s : string)
| NotText (v : non_string).

(** [datetime.strptime] checks its first argument before it parses: a value
    that is not a string raises [TypeError], which is not the [ValueError]
    the handlers catch around the call. *)
Definition strptime_type_error (v : non_string) : exn :=
  TypeError ("strptime() argument 1 must be str, not "
             ++ match v with
                | TNull => "None"
                | TBool _ => "bool"
                | TNumber _ => "int"
                | TArray => "list"
                | TObject => "dict"
                end)%string.

(** The value of [attendances]: a JSON array of entries, or another JSON
    value. *)
Inductive attendances_value :=
| AArray (entries : list entry)
| AString (s : string)
| AObject (keys : list string)
| ANull
| ABool (b : bool)
| ANumber (n : Z).

(** [for attendance_data in data['attendances']]: an array gives its elements,
    a string its characters, an object its keys; the other values cannot be
    iterated. *)
Definition iterate (v : attendances_value) : exn + list entry :=
  match v with
  | AArray entries => inr entries
  | AString s =>
      inr (map (fun c => EOther (JString (String c EmptyString)))
               (list_ascii_of_string s))
  | AObject keys => inr (map (fun k => EOther (JString k)) keys)
  | ANull => inl (TypeError "'NoneType' object is not iterable")
  | ABool _ => inl (TypeError "'bool' object is not iterable")
  | ANumber _ => inl (TypeError "'int' object is not iterable")
  end.

Record bulk_request := mkBulk {
  b_class_id : option Z;
  b_date : option text_value;
  b_attendances : option attendances_value
}.

Record create_request := mkCreate {
  c_student_id : option Z;
  c_class_id : option Z;
  c_date : option text_value;
  c_present : option bool;
  c_notes : option string
}.

(** The body of a PUT: a key may be absent, and [notes] may be present and
    null. *)
Record update_request := mkUpdate {
  u_present : option bool;
  u_notes : option (option string)
}.

Record list_args := mkArgs {
  q_student_id : option Z;   (* request.args.get('student_id', type=int) *)
  q_class_id : option Z;
  q_date : option string
}.

Inductive response :=
| JsonError (status : Z) (error : string)
| JsonBulk (status : Z) (message : string)
           (created : list attendance_dict) (errors : list string)
| JsonRecord (status : Z) (body : attendance_dict)
| JsonList (status : Z) (body : list attendance_dict).

Definition status_of (r : response) : Z :=
  match r with
  | JsonError s _ | JsonBulk s _ _ _ | JsonRecord s _ | JsonList s _ => s
  end.

(** What the request sees of its environment: the logged-in user, the clock,
    and whether the store accepts the commit. *)
Record env := mkEnv {
  current_user : Z;
  utcnow : Z;
  commit_failure : option exn
}.

Definition invalid_date_msg : string := "Invalid date format. Use YYYY-MM-DD".

(** Python truthiness of an optional integer and an optional string. *)
Definition truthy_int (v : option Z) : option Z :=
  match v with
  | Some n => if n =? 0 then None else Some n
  | None => None
  end.

Definition truthy_str (v : option string) : option string :=
  match v with
  | Some s => if String.eqb s "" then None else Some s
  | None => None
  end.

(** ** A parser for the examples

    [strptime_iso] reads a four-digit year, a month and a day of one or two
    digits each, separated by hyphens, and checks them against the calendar;
    it stands for [datetime.strptime(s, '%Y-%m-%d').date()] wherever a
    statement below is evaluated on concrete requests. *)

Definition digit_of (c : Ascii.ascii) : option Z :=
  let n := Z.of_nat (Ascii.nat_of_ascii c) in
  if (48 <=? n) && (n <=? 57) then Some (n - 48) else None.

Fixpoint number_of (acc : Z) (s : string) : option Z :=
  match s with
  | EmptyString => Some acc
  | String c rest =>
      match digit_of c with
      | Some d => number_of (10 * acc + d) rest
      | None => None
      end
  end.

Fixpoint split_hyphen (cur : string) (s : string) : list string :=
  match s with
  | EmptyString => [cur]
  | String c rest =>
      if Ascii.eqb c "-"%char then cur :: split_hyphen EmptyString rest
      else split_hyphen (cur ++ String c EmptyString)%string rest
  end.

Definition leap_year (y : Z) : bool :=
  ((y mod 4 =? 0) && negb (y mod 100 =? 0)) || (y mod 400 =? 0).

Definition days_in_month (y m : Z) : Z :=
  if m =? 2 then (if leap_year y then 29 else 28)
  else if (m =? 4) || (m =? 6) || (m =? 9) || (m =? 11) then 30
  else 31.

Definition strptime_iso (s : string) : option date :=
  match split_hyphen EmptyString s with
  | [ys; ms; ds] =>
      match number_of 0 ys, number_of 0 ms, number_of 0 ds with
      | Some y, Some m, Some d =>
          if (Nat.eqb (String.length ys) 4)
             && (Nat.leb 1 (String.length ms)) && (Nat.leb (String.length ms) 2)
             && (Nat.leb 1 (String.length ds)) && (Nat.leb (String.length ds) 2)
             && (1 <=? y) && (1 <=? m) && (m <=? 12)
             && (1 <=? d) && (d <=? days_in_month y m)
          then Some (mkDate y m d) else None
      | _, _, _ => None
      end
  | _ => None
  end.

Section Routes.

(** [datetime.strptime(s, '%Y-%m-%d').date()]; [None] is its [ValueError]. *)
Variable strptime_ymd : string -> option date.

(** *** GET /attendances *)

Definition opt_filter {K} (v : option K) (p : K -> Attendance -> bool)
           (rows : list Attendance) : list Attendance :=
  match v with
  | Some k => filter (p k) rows
  | None => rows
  end.

Definition get_attendances (db : Db) (args : list_args) : response :=
  let query := attendances db in
  let query := opt_filter (truthy_int (q_student_id args))
                          (fun k a => student_id a =? k) query in
  let query := opt_filter (truthy_int (q_class_id args))
                          (fun k a => class_id a =? k) query in
  match truthy_str (q_date args) with
  | Some s =>
      match strptime_ymd s with
      | Some d =>
          JsonList 200 (map to_dict (filter (fun a => date_eqb (att_date a) d) query))
      | None => JsonError 400 invalid_date_msg
      end
  | None => JsonList 200 (map to_dict query)
  end.

(** *** POST /attendances *)

Definition with_attendances (db : Db) (rows : list Attendance) : Db :=
  mkDb rows (students db) (classes db).

(** [db.session.commit()] followed by the handler's own [except]: on failure
    the session is rolled back and the answer is a 500. *)
Definition commit (e : env) (db : Db) (rows : list Attendance)
           (ok : response) : Db * response :=
  match commit_failure e with
  | None => (with_attendances db rows, ok)
  | Some ex => (db, JsonError 500 (str_exn ex))
  end.

Definition default_present (p : option bool) : bool :=
  match p with Some b => b | None => true end.

Definition create_attendance (e : env) (db : Db) (data : create_request)
  : Db * response :=
  match c_student_id data with
  | None => (db, JsonError 400 "student_id is required")
  | Some sid =>
  match c_class_id data with
  | None => (db, JsonError 400 "class_id is required")
  | Some cid =>
  match c_date data with
  | None => (db, JsonError 400 "date is required")
  | Some (NotText v) => (db, JsonError 500 (str_exn (strptime_type_error v)))
  | Some (Text ds) =>
  match strptime_ymd ds with
  | None => (db, JsonError 400 invalid_date_msg)
  | Some attendance_date =>
      if negb (query_get (students db) sid) then
        (db, JsonError 404 "Student not found")
      else if negb (query_get (classes db) cid) then
        (db, JsonError 404 "Class not found")
      else
        match first (filter_by_triple sid cid attendance_date) (attendances db) with
        | Some _ =>
            (db, JsonError 400
              "Attendance record already exists for this student, class, and date")
        | None =>
            let attendance :=
              mkAttendance (fresh_id (attendances db)) sid cid attendance_date
                           (default_present (c_present data)) (c_notes data)
                           (current_user e) (utcnow e) in
            commit e db (session_add (attendances db) attendance)
                   (JsonRecord 201 (to_dict attendance))
        end
  end end end end.

(** *** POST /attendances/bulk *)

Record loop_state := mkLoop {
  session : list Attendance;
  created_records : list attendance_dict;
  errors : list string
}.

(** [attendance_data['student_id']] *)
Definition entry_student_id (a : entry) : exn + Z :=
  match a with
  | EObject (Some sid) _ _ => inr sid
  | EObject None _ _ => inl (KeyError "student_id")
  | EOther (JString _) => inl (TypeError "string indices must be integers")
  | EOther JArray =>
      inl (TypeError "list indices must be integers or slices, not str")
  | EOther v => inl (TypeError ("'" ++ type_name v ++ "' object is not subscriptable")%string)
  end.

(** [attendance_data.get("student_id", "unknown")], formatted. *)
Definition entry_student_label (a : entry) : exn + string :=
  match a with
  | EObject (Some sid) _ _ => inr (str_int sid)
  | EObject None _ _ => inr "unknown"
  | EOther v =>
      inl (AttributeError ("'" ++ type_name v ++ "' object has no attribute 'get'")%string)
  end.

Definition entry_present (a : entry) : bool :=
  match a with
  | EObject _ p _ => default_present p
  | EOther _ => true
  end.

Definition entry_notes (a : entry) : option string :=
  match a with
  | EObject _ _ n => n
  | EOther _ => None
  end.

(** The body of the [try] inside the loop. *)
Definition try_entry (e : env) (db : Db) (cid : Z) (attendance_date : date)
           (st : loop_state) (a : entry) : exn + loop_state :=
  match entry_student_id a with
  | inl ex => inl ex
  | inr sid =>
      if negb (query_get (students db) sid) then
        inr (mkLoop (session st) (created_records st)
                    (errors st ++ [("Student " ++ str_int sid ++ " not found")%string]))
      else
        match first (filter_by_triple sid cid attendance_date) (session st) with
        | Some existing =>
            let updated := set_presence (entry_present a) (entry_notes a)
                                        (current_user e) (utcnow e) existing in
            inr (mkLoop (update_first (filter_by_triple sid cid attendance_date)
                                      (set_presence (entry_present a) (entry_notes a)
                                                    (current_user e) (utcnow e))
                                      (session st))
                        (created_records st ++ [to_dict updated])
                        (errors st))
        | None =>
            let attendance :=
              mkAttendance (fresh_id (session st)) sid cid attendance_date
                           (entry_present a) (entry_notes a)
                           (current_user e) (utcnow e) in
            inr (mkLoop (session_add (session st) attendance)
                        (created_records st ++ [to_dict_pending attendance])
                        (errors st))
        end
  end.

(** One iteration: the [try] and its [except Exception], whose f-string may
    itself raise. *)
Definition process_entry (e : env) (db : Db) (cid : Z) (attendance_date : date)
           (st : loop_state) (a : entry) : exn + loop_state :=
  match try_entry e db cid attendance_date st a with
  | inr st' => inr st'
  | inl ex =>
      match entry_student_label a with
      | inl ex' => inl ex'
      | inr label =>
          inr (mkLoop (session st) (created_records st)
                      (errors st ++ [("Error processing student " ++ label
                                        ++ ": " ++ str_exn ex)%string]))
      end
  end.

Fixpoint bulk_loop (e : env) (db : Db) (cid : Z) (attendance_date : date)
         (entries : list entry) (st : loop_state) : exn + loop_state :=
  match entries with
  | [] => inr st
  | a :: rest =>
      match process_entry e db cid attendance_date st a with
      | inl ex => inl ex
      | inr st' => bulk_loop e db cid attendance_date rest st'
      end
  end.

Definition create_bulk_attendance (e : env) (db : Db) (data : bulk_request)
  : Db * response :=
  match b_class_id data with
  | None => (db, JsonError 400 "class_id is required")
  | Some cid =>
  match b_date data with
  | None => (db, JsonError 400 "date is required")
  | Some date_value =>
  match b_attendances data with
  | None => (db, JsonError 400 "attendances is required")
  | Some attendances_json =>
  match date_value with
  | NotText v => (db, JsonError 500 (str_exn (strptime_type_error v)))
  | Text ds =>
  match strptime_ymd ds with
  | None => (db, JsonError 400 invalid_date_msg)
  | Some attendance_date =>
      if negb (query_get (classes db) cid) then
        (db, JsonError 404 "Class not found")
      else
        match iterate attendances_json with
        | inl ex => (db, JsonError 500 (str_exn ex))
        | inr entries =>
        match bulk_loop e db cid attendance_date entries
                        (mkLoop (attendances db) [] []) with
        | inl ex => (db, JsonError 500 (str_exn ex))
        | inr st =>
            commit e db (session st)
                   (JsonBulk 201
                      ("Processed " ++ str_len (created_records st)
                         ++ " attendance records")%string
                      (created_records st) (errors st))
        end
        end
  end end end end end.

(** *** PUT /attendances/<id> *)

Definition by_id (k : Z) (a : Attendance) : bool := id a =? k.

Definition apply_update (e : env) (data : update_request) (a : Attendance)
  : Attendance :=
  let a1 := match u_present data with
            | Some p => mkAttendance (id a) (student_id a) (class_id a) (att_date a)
                                     p (notes a) (recorded_by a) (recorded_at a)
            | None => a
            end in
  let a2 := match u_notes data with
            | Some n => mkAttendance (id a1) (student_id a1) (class_id a1) (att_date a1)
                                     (present a1) n (recorded_by a1) (recorded_at a1)
            | None => a1
            end in
  set_stamp (current_user e) (utcnow e) a2.

(** [get_or_404] raises werkzeug's NotFound inside the handler's [try]; the
    handler's [except Exception] turns it into a 500. *)
Definition not_found_msg : string :=
  ("404 Not Found: The requested URL was not found on the server. "
   ++ "If you entered the URL manually please check your spelling and try again.")%string.

Definition update_attendance (e : env) (db : Db) (attendance_id : Z)
           (data : update_request) : Db * response :=
  match first (by_id attendance_id) (attendances db) with
  | None => (db, JsonError 500 not_found_msg)
  | Some attendance =>
      commit e db
             (update_first (by_id attendance_id) (apply_update e data)
                           (attendances db))
             (JsonRecord 200 (to_dict (apply_update e data attendance)))
  end.

(** *** GET /attendances/<id> *)

Definition get_attendance (db : Db) (attendance_id : Z) : response :=
  match first (by_id attendance_id) (attendances db) with
  | None => JsonError 500 not_found_msg
  | Some attendance => JsonRecord 200 (to_dict attendance)
  end.

(** *** DELETE /attendances/<id> *)

(** An answer is a JSON document or, for [return '', 204], a plain body. *)
Inductive http_response :=
| Json (r : response)
| Plain (status : Z) (body : string).

Definition http_status (r : http_response) : Z :=
  match r with
  | Json j => status_of j
  | Plain s _ => s
  end.

(** [db.session.delete] of the object a query returned: that row goes, the
    others stay in their order. *)
Fixpoint delete_first (p : Attendance -> bool) (rows : list Attendance)
  : list Attendance :=
  match rows with
  | [] => []
  | a :: rest => if p a then rest else a :: delete_first p rest
  end.

Definition delete_attendance (e : env) (db : Db) (attendance_id : Z)
  : Db * http_response :=
  match first (by_id attendance_id) (attendances db) with
  | None => (db, Json (JsonError 500 not_found_msg))
  | Some attendance =>
      match commit_failure e with
      | None =>
          (with_attendances db (delete_first (by_id attendance_id) (attendances db)),
           Plain 204 "")
      | Some ex => (db, Json (JsonError 500 (str_exn ex)))
      end
  end.

(** *** What the statements below are phrased with *)

(** The three preconditions of the bulk operation, checked once: the fields
    are there, the date parses, the class exists; with them, the entries
    that the loop is given when the value of [attendances] can be iterated
    (a value that cannot is [None] here too: the loop never starts). *)
Definition preconditions (db : Db) (data : bulk_request)
  : option (Z * date * list entry) :=
  match b_class_id data, b_date data, b_attendances data with
  | Some cid, Some (Text ds), Some attendances_json =>
      match strptime_ymd ds, iterate attendances_json with
      | Some d, inr entries =>
          if query_get (classes db) cid then Some (cid, d, entries) else None
      | _, _ => None
      end
  | _, _, _ => None
  end.

(** The same request with another value of [attendances]. *)
Definition with_entries (data : bulk_request) (v : attendances_value)
  : bulk_request :=
  mkBulk (b_class_id data) (b_date data)
         (match b_attendances data with Some _ => Some v | None => None end).

(** The entry names a student that exists. *)
Definition resolvable (db : Db) (a : entry) : bool :=
  match entry_student_id a with
  | inr sid => query_get (students db) sid
  | inl _ => false
  end.

Definition resolvable_as (db : Db) (sid : Z) (a : entry) : bool :=
  match entry_student_id a with
  | inr k => (k =? sid) && query_get (students db) k
  | inl _ => false
  end.

Definition is_object (a : entry) : bool :=
  match a with EObject _ _ _ => true | EOther _ => false end.

(** The values carried by the last entry of the batch that names student
    [sid], if the student exists. *)
Fixpoint last_data (db : Db) (entries : list entry) (sid : Z)
  : option (bool * option string) :=
  match entries with
  | [] => None
  | a :: rest =>
      match last_data db rest sid with
      | Some v => Some v
      | None => if resolvable_as db sid a
                then Some (entry_present a, entry_notes a) else None
      end
  end.

(** What one iteration does to the session. *)
Definition entry_effect (e : env) (db : Db) (cid : Z) (d : date)
           (rows : list Attendance) (a : entry) : list Attendance :=
  match entry_student_id a with
  | inl _ => rows
  | inr sid =>
      if query_get (students db) sid then
        match first (filter_by_triple sid cid d) rows with
        | Some _ =>
            update_first (filter_by_triple sid cid d)
                         (set_presence (entry_present a) (entry_notes a)
                                       (current_user e) (utcnow e)) rows
        | None =>
            session_add rows
              (mkAttendance (fresh_id rows) sid cid d (entry_present a)
                            (entry_notes a) (current_user e) (utcnow e))
        end
      else rows
  end.

End Routes.

(** Number of records for one (student, class, date). *)
Definition count_triple (sid cid : Z) (d : date) (rows : list Attendance) : nat :=
  List.length (filter (filter_by_triple sid cid d) rows).

(** Number of records for one class on one day. *)
Definition count_class_date (cid : Z) (d : date) (rows : list Attendance) : nat :=
  List.length (filter (fun a => (class_id a =? cid) && date_eqb (att_date a) d) rows).

(** The uniqueness invariant of the Attendance table. *)
Definition unique_triples (rows : list Attendance) : Prop :=
  forall sid cid d, (count_triple sid cid d rows <= 1)%nat.

Definition triple_of (a : Attendance) : Z * Z * date :=
  (student_id a, class_id a, att_date a).

(** A row without its [recorded_by] and [recorded_at]. *)
Definition unstamped (a : Attendance) : Attendance := set_stamp 0 0 a.

(** Assignment of [present] and [notes] alone. *)
Definition set_data (p : bool) (n : option string) (a : Attendance) : Attendance :=
  mkAttendance (id a) (student_id a) (class_id a) (att_date a) p n
               (recorded_by a) (recorded_at a).

(** What an entry assigns to [present] and [notes] of the record of its
    triple, when there is one; a device to compare two runs of a batch. *)
Definition entry_touch (db : Db) (cid : Z) (d : date)
           (rows : list Attendance) (a : entry) : list Attendance :=
  match entry_student_id a with
  | inl _ => rows
  | inr sid =>
      if query_get (students db) sid then
        update_first (filter_by_triple sid cid d)
                     (set_data (entry_present a) (entry_notes a)) rows
      else rows
  end.

(** The filters of the list operation, taken together. *)
Definition matches_args (sid cid : option Z) (d : option date) (a : Attendance)
  : bool :=
  match sid with Some k => student_id a =? k | None => true end
  && match cid with Some k => class_id a =? k | None => true end
  && match d with Some x => date_eqb (att_date a) x | None => true end.

(** The message, if any, that one object of a batch adds to [errors]. *)
Definition entry_message (db : Db) (a : entry) : list string :=
  match a with
  | EObject (Some sid) _ _ =>
      if query_get (students db) sid then []
      else [("Student " ++ str_int sid ++ " not found")%string]
  | EObject None _ _ => ["Error processing student unknown: 'student_id'"]
  | EOther _ => []
  end.

(** A serialized record without its id and its [recorded_at]. *)
Definition dict_fields (x : attendance_dict)
  : Z * Z * date * bool * option string * Z :=
  (d_student_id x, d_class_id x, d_date x, d_present x, d_notes x,
   d_recorded_by x).

(** The fields, if any, that one object of a batch adds to [created]. *)
Definition entry_fields (e : env) (db : Db) (cid : Z) (d : date) (a : entry)
  : list (Z * Z * date * bool * option string * Z) :=
  match entry_student_id a with
  | inr sid =>
      if query_get (students db) sid
      then [(sid, cid, d, entry_present a, entry_notes a, current_user e)]
      else []
  | inl _ => []
  end.




(** The record is for another class or another day. *)
Definition elsewhere (cid : Z) (d : date) (a : Attendance) : bool :=
  negb ((class_id a =? cid) && date_eqb (att_date a) d).

(** ** Sample data *)

Definition day1 : date := mkDate 2024 3 1.

Definition db_empty : Db := mkDb [] [1; 2; 3] [5].

Definition row1 : Attendance := mkAttendance 1 1 5 day1 true None 42 1000.

Definition db_one : Db := mkDb [row1] [1; 2; 3] [5].

Definition env_ok : env := mkEnv 42 1000 None.

Definition env_later : env := mkEnv 42 2000 None.

Definition env_other : env := mkEnv 43 3000 None.

Definition env_fail : env := mkEnv 42 1000 (Some (StorageError "database is locked")).

Definition batch1 : bulk_request :=
  mkBulk (Some 5) (Some (Text "2024-03-01"))
         (Some (AArray [EObject (Some 1) (Some true) None;
                        EObject (Some 999) (Some false) None])).

Definition batch_late : bulk_request :=
  mkBulk (Some 5) (Some (Text "2024-03-01"))
         (Some (AArray [EObject (Some 1) (Some false) (Some "late")])).

Definition batch_number : bulk_request :=
  mkBulk (Some 5) (Some (Text "2024-03-01"))
         (Some (AArray [EObject (Some 1) None None; EOther (JNumber 7)])).

Definition batch_bad_date : bulk_request :=
  mkBulk (Some 5) (Some (Text "03-01-2024"))
         (Some (AArray [EObject (Some 1) (Some true) None])).

Definition entries1 : list entry :=
  [EObject (Some 1) (Some true) None; EObject (Some 999) (Some false) None].

Definition day2 : date := mkDate 2024 3 2.

Definition row2 : Attendance := mkAttendance 2 2 6 day2 false (Some "sick") 42 1000.

Definition db_two : Db := mkDb [row1; row2] [1; 2; 3] [5; 6].

Definition create_two : create_request :=
  mkCreate (Some 2) (Some 5) (Some (Text "2024-03-01")) None (Some "on time").

Definition create_again : create_request :=
  mkCreate (Some 1) (Some 5) (Some (Text "2024-03-01")) (Some false) None.

Definition create_no_date : create_request :=
  mkCreate (Some 99) (Some 5) None None None.

Definition update_clear : update_request := mkUpdate (Some false) (Some None).

Definition batch_unknown : bulk_request :=
  mkBulk (Some 5) (Some (Text "2024-03-01"))
         (Some (AArray [EObject (Some 999) None None;
                        EObject None (Some true) None])).

(** [{"class_id": 5, "date": null, "attendances": [{"student_id": 1}]}] *)
Definition batch_null_date : bulk_request :=
  mkBulk (Some 5) (Some (NotText TNull))
         (Some (AArray [EObject (Some 1) None None])).

(** [{"student_id": 2, "class_id": 5, "date": 20240301}] *)
Definition create_number_date : create_request :=
  mkCreate (Some 2) (Some 5) (Some (NotText (TNumber 20240301))) None None.


(** Case analysis on every [match] of the goal, for the handlers' chains of
    early returns. *)
Ltac split_matches :=
  repeat match goal with
         | |- context [match ?x with _ => _ end] => destruct x
         end.

(** ** Lists: the first match and its update *)

Section FirstMatch.

Variables p q : Attendance -> bool.
Variable g : Attendance -> Attendance.

Lemma update_first_length rows :
  List.length (update_first p g rows) = List.length rows.
Proof.
  induction rows as [|a rows IH]; simpl; [reflexivity|].
  destruct (p a); simpl; congruence.
Qed.

Lemma update_first_absent rows :
  first p rows = None -> update_first p g rows = rows.
Proof.
  unfold first. induction rows as [|a rows IH]; simpl; [reflexivity|].
  destruct (p a); [discriminate|]. intros H. now rewrite IH.
Qed.

Lemma update_first_fixed rows :
  (forall r, first p rows = Some r -> g r = r) -> update_first p g rows = rows.
Proof.
  unfold first. induction rows as [|a rows IH]; simpl; [reflexivity|].
  destruct (p a); intros H.
  - now rewrite H.
  - now rewrite IH.
Qed.

Lemma first_update_same rows :
  (forall r, p (g r) = p r) ->
  first p (update_first p g rows) = option_map g (first p rows).
Proof.
  intros Hp. unfold first. induction rows as [|a rows IH]; simpl; [reflexivity|].
  destruct (p a) eqn:Ha; simpl.
  - now rewrite Hp, Ha.
  - now rewrite Ha.
Qed.

Lemma first_update_other rows :
  (forall r, q (g r) = q r) ->
  (forall r, p r = true -> q r = false) ->
  first q (update_first p g rows) = first q rows.
Proof.
  intros Hq Hpq. unfold first. induction rows as [|a rows IH]; simpl; [reflexivity|].
  destruct (p a) eqn:Ha; simpl.
  - now rewrite Hq, (Hpq a Ha).
  - destruct (q a); [reflexivity|exact IH].
Qed.

Lemma filter_update_first_length rows :
  (forall r, q (g r) = q r) ->
  List.length (filter q (update_first p g rows)) = List.length (filter q rows).
Proof.
  intros Hq. induction rows as [|a rows IH]; simpl; [reflexivity|].
  destruct (p a); simpl.
  - rewrite Hq. now destruct (q a).
  - destruct (q a); simpl; congruence.
Qed.

Lemma map_update_first {B} (h : Attendance -> B) rows :
  (forall r, h (g r) = h r) -> map h (update_first p g rows) = map h rows.
Proof.
  intros Hh. induction rows as [|a rows IH]; simpl; [reflexivity|].
  destruct (p a); simpl; congruence.
Qed.

Lemma first_append rows a :
  first p (rows ++ [a]) =
  match first p rows with
  | Some r => Some r
  | None => if p a then Some a else None
  end.
Proof.
  unfold first. induction rows as [|b rows IH]; simpl; [reflexivity|].
  destruct (p b); [reflexivity|exact IH].
Qed.

Lemma first_absent_filter rows :
  first p rows = None -> filter p rows = [].
Proof.
  unfold first. induction rows as [|a rows IH]; simpl; [reflexivity|].
  destruct (p a); [discriminate|exact IH].
Qed.

Lemma first_some_holds rows r : first p rows = Some r -> p r = true.
Proof. unfold first. intros H. now apply find_some in H. Qed.

Lemma first_some_counted rows r :
  first p rows = Some r -> (1 <= List.length (filter p rows))%nat.
Proof.
  unfold first. induction rows as [|a rows IH]; simpl; [discriminate|].
  destruct (p a); simpl; [lia|exact IH].
Qed.

Lemma update_first_ext g' rows :
  (forall r, g r = g' r) -> update_first p g rows = update_first p g' rows.
Proof.
  intros Hg. induction rows as [|a rows IH]; simpl; [reflexivity|].
  now rewrite Hg, IH.
Qed.

Lemma update_first_twice g' rows :
  (forall r, p (g' r) = p r) ->
  update_first p g (update_first p g' rows) = update_first p (fun r => g (g' r)) rows.
Proof.
  intros Hp. induction rows as [|a rows IH]; simpl; [reflexivity|].
  destruct (p a) eqn:Ha; simpl.
  - now rewrite Hp, Ha.
  - now rewrite Ha, IH.
Qed.

Lemma update_first_swap g' rows :
  (forall r, p r = true -> q r = false) ->
  (forall r, q (g r) = q r) ->
  (forall r, p (g' r) = p r) ->
  update_first p g (update_first q g' rows) = update_first q g' (update_first p g rows).
Proof.
  intros Hpq Hq Hp. induction rows as [|a rows IH]; simpl; [reflexivity|].
  destruct (p a) eqn:Ha.
  - rewrite (Hpq a Ha). simpl. now rewrite Ha, Hq, (Hpq a Ha).
  - destruct (q a) eqn:Hb; simpl.
    + now rewrite Hp, Ha, Hb.
    + now rewrite Ha, Hb, IH.
Qed.

Lemma map_update_first_commute (h : Attendance -> Attendance) g' rows :
  (forall r, p (h r) = p r) ->
  (forall r, h (g r) = g' (h r)) ->
  map h (update_first p g rows) = update_first p g' (map h rows).
Proof.
  intros Hp Hg. induction rows as [|a rows IH]; simpl; [reflexivity|].
  rewrite Hp. destruct (p a); simpl; congruence.
Qed.

Lemma first_map (h : Attendance -> Attendance) rows :
  (forall r, p (h r) = p r) ->
  first p (map h rows) = option_map h (first p rows).
Proof.
  intros Hp. unfold first. induction rows as [|a rows IH]; simpl; [reflexivity|].
  rewrite Hp. destruct (p a); [reflexivity|exact IH].
Qed.

Lemma filter_map_length (h : Attendance -> Attendance) rows :
  (forall r, p (h r) = p r) ->
  List.length (filter p (map h rows)) = List.length (filter p rows).
Proof.
  intros Hp. induction rows as [|a rows IH]; simpl; [reflexivity|].
  rewrite Hp. destruct (p a); simpl; congruence.
Qed.

End FirstMatch.

(** ** The key of a row *)

Lemma date_eqb_eq a b : date_eqb a b = true <-> a = b.
Proof.
  unfold date_eqb. destruct a as [y m d], b as [y' m' d']; simpl.
  rewrite !andb_true_iff, !Z.eqb_eq. split.
  - intros [[-> ->] ->]. reflexivity.
  - intros H. injection H as -> -> ->. auto.
Qed.

Lemma filter_by_triple_spec sid cid d a :
  filter_by_triple sid cid d a = true <-> triple_of a = (sid, cid, d).
Proof.
  unfold filter_by_triple, triple_of.
  rewrite !andb_true_iff, !Z.eqb_eq, date_eqb_eq. split.
  - intros [[-> ->] ->]. reflexivity.
  - intros H. injection H as -> -> ->. auto.
Qed.

Lemma filter_by_triple_student sid sid' cid d a :
  filter_by_triple sid cid d a = true -> sid <> sid' ->
  filter_by_triple sid' cid d a = false.
Proof.
  intros H Hne. destruct (filter_by_triple sid' cid d a) eqn:H'; [|reflexivity].
  apply filter_by_triple_spec in H, H'. congruence.
Qed.

Lemma filter_by_triple_set_presence sid cid d p n u t a :
  filter_by_triple sid cid d (set_presence p n u t a) = filter_by_triple sid cid d a.
Proof. reflexivity. Qed.

Lemma filter_by_triple_set_data sid cid d p n a :
  filter_by_triple sid cid d (set_data p n a) = filter_by_triple sid cid d a.
Proof. reflexivity. Qed.

Lemma unique_triples_nil : unique_triples [].
Proof. intros sid cid d. cbn. lia. Qed.

Lemma unique_triples_single a : unique_triples [a].
Proof.
  intros sid cid d. unfold count_triple. simpl.
  destruct (filter_by_triple sid cid d a); simpl; lia.
Qed.

(** ** The session during one batch *)

Section Session.

Variables (e : env) (db : Db) (cid : Z) (d : date).

Abbreviation hit sid := (filter_by_triple sid cid d).
Abbreviation effect := (entry_effect e db cid d).
Abbreviation stamp a :=
  (set_presence (entry_present a) (entry_notes a) (current_user e) (utcnow e)).

Lemma resolvable_as_spec sid a :
  resolvable_as db sid a = true <->
  entry_student_id a = inr sid /\ query_get (students db) sid = true.
Proof.
  unfold resolvable_as. destruct (entry_student_id a) as [ex|k].
  - split; [discriminate|]. intros [H _]. discriminate.
  - rewrite andb_true_iff, Z.eqb_eq. split.
    + intros [-> H]. auto.
    + intros [H Hq]. injection H as ->. auto.
Qed.

Lemma resolvable_as_resolvable sid a :
  resolvable_as db sid a = true -> resolvable db a = true.
Proof.
  intros H. apply resolvable_as_spec in H as [H Hq]. unfold resolvable. now rewrite H.
Qed.

(** The three things an iteration can do to the session. *)
Lemma effect_cases rows a :
  (resolvable db a = false /\ effect rows a = rows)
  \/ (exists sid existing,
        resolvable_as db sid a = true
        /\ first (hit sid) rows = Some existing
        /\ effect rows a = update_first (hit sid) (stamp a) rows)
  \/ (exists sid,
        resolvable_as db sid a = true
        /\ first (hit sid) rows = None
        /\ effect rows a
           = rows ++ [mkAttendance (fresh_id rows) sid cid d (entry_present a)
                                   (entry_notes a) (current_user e) (utcnow e)]).
Proof.
  unfold entry_effect, resolvable.
  destruct (entry_student_id a) as [ex|sid] eqn:Hsid; [now left|].
  destruct (query_get (students db) sid) eqn:Hq; [|now left].
  right.
  assert (Hr : resolvable_as db sid a = true) by (apply resolvable_as_spec; auto).
  destruct (first (filter_by_triple sid cid d) rows) as [r|] eqn:Hf.
  - left. exists sid, r. auto.
  - right. exists sid. auto.
Qed.

Lemma resolvable_as_unique sid sid' a :
  resolvable_as db sid a = true -> resolvable_as db sid' a = true -> sid = sid'.
Proof.
  intros H H'. apply resolvable_as_spec in H as [H _], H' as [H' _]. congruence.
Qed.

Lemma hit_other sid sid' r : hit sid r = true -> sid <> sid' -> hit sid' r = false.
Proof. apply filter_by_triple_student. Qed.

(** Uniqueness of triples is kept by an iteration. *)
Lemma effect_unique rows a :
  unique_triples rows -> unique_triples (effect rows a).
Proof.
  intros Hu.
  destruct (effect_cases rows a)
    as [[_ ->]|[(sid & r & _ & _ & ->)|(sid & Hr & Hf & ->)]]; [assumption| |].
  - intros s c dd. unfold count_triple.
    rewrite filter_update_first_length; [apply Hu|reflexivity].
  - intros s c dd. unfold count_triple. rewrite filter_app, length_app. simpl.
    destruct (filter_by_triple s c dd _) eqn:Hn; simpl.
    + apply filter_by_triple_spec in Hn. unfold triple_of in Hn. simpl in Hn.
      injection Hn as <- <- <-.
      rewrite (first_absent_filter _ _ Hf). simpl. lia.
    + specialize (Hu s c dd). unfold count_triple in Hu. lia.
Qed.

Lemma fold_effect_unique entries : forall rows,
  unique_triples rows -> unique_triples (fold_left effect entries rows).
Proof.
  induction entries as [|a entries IH]; intros rows Hu; simpl; [assumption|].
  apply IH. now apply effect_unique.
Qed.

(** The record of the entry's triple after the iteration. *)
Lemma effect_first_same rows a sid :
  resolvable_as db sid a = true ->
  exists r,
    first (hit sid) (effect rows a) = Some r
    /\ present r = entry_present a /\ notes r = entry_notes a
    /\ recorded_by r = current_user e /\ recorded_at r = utcnow e.
Proof.
  intros Hr.
  destruct (effect_cases rows a)
    as [[Hn _]|[(k & r & Hk & Hf & ->)|(k & Hk & Hf & ->)]].
  - rewrite (resolvable_as_resolvable _ _ Hr) in Hn. discriminate.
  - rewrite (resolvable_as_unique _ _ _ Hr Hk).
    rewrite first_update_same, Hf by reflexivity.
    exists (stamp a r). repeat split.
  - rewrite (resolvable_as_unique _ _ _ Hr Hk).
    rewrite first_append, Hf.
    assert (Hh : hit k (mkAttendance (fresh_id rows) k cid d (entry_present a)
                         (entry_notes a) (current_user e) (utcnow e)) = true)
      by (apply filter_by_triple_spec; reflexivity).
    rewrite Hh. eexists. repeat split.
Qed.

(** The records of other students are not touched. *)
Lemma effect_first_other rows a sid :
  resolvable_as db sid a = false ->
  first (hit sid) (effect rows a) = first (hit sid) rows.
Proof.
  intros Hr.
  destruct (effect_cases rows a)
    as [[_ ->]|[(k & r & Hk & Hf & ->)|(k & Hk & Hf & ->)]]; [reflexivity| |].
  - assert (k <> sid) by (intros ->; congruence).
    apply first_update_other; [reflexivity|].
    intros r0 Hr0. now apply (hit_other k sid).
  - assert (Hne : k <> sid) by (intros ->; congruence).
    rewrite first_append.
    destruct (first (hit sid) rows); [reflexivity|].
    rewrite (hit_other k sid); [reflexivity| |assumption].
    apply filter_by_triple_spec. reflexivity.
Qed.

(** A record that is there stays, under the same id. *)
Lemma effect_first_id rows a sid r0 :
  first (hit sid) rows = Some r0 ->
  exists r, first (hit sid) (effect rows a) = Some r /\ id r = id r0.
Proof.
  intros H0.
  destruct (resolvable_as db sid a) eqn:Hr.
  - destruct (effect_cases rows a)
      as [[Hn _]|[(k & r & Hk & Hf & ->)|(k & Hk & Hf & _)]].
    + rewrite (resolvable_as_resolvable _ _ Hr) in Hn. discriminate.
    + rewrite (resolvable_as_unique _ _ _ Hr Hk) in *.
      rewrite first_update_same, Hf by reflexivity.
      exists (stamp a r). split; [reflexivity|]. simpl. congruence.
    + rewrite (resolvable_as_unique _ _ _ Hr Hk) in *. congruence.
  - rewrite effect_first_other by assumption. eauto.
Qed.

Lemma fold_effect_first_id entries : forall rows sid r0,
  first (hit sid) rows = Some r0 ->
  exists r, first (hit sid) (fold_left effect entries rows) = Some r /\ id r = id r0.
Proof.
  induction entries as [|a entries IH]; intros rows sid r0 H0; simpl; [eauto|].
  destruct (effect_first_id rows a sid r0 H0) as (r1 & H1 & Hid1).
  destruct (IH _ _ _ H1) as (r & Hr & Hid). exists r. split; [assumption|congruence].
Qed.

Lemma last_data_none_head a entries sid :
  last_data db (a :: entries) sid = None ->
  resolvable_as db sid a = false /\ last_data db entries sid = None.
Proof.
  simpl. destruct (last_data db entries sid); [discriminate|].
  destruct (resolvable_as db sid a); [discriminate|auto].
Qed.

Lemma fold_effect_first_untouched entries : forall rows sid,
  last_data db entries sid = None ->
  first (hit sid) (fold_left effect entries rows) = first (hit sid) rows.
Proof.
  induction entries as [|a entries IH]; intros rows sid Hl; simpl; [reflexivity|].
  apply last_data_none_head in Hl as [Ha Hl].
  rewrite IH by assumption. now apply effect_first_other.
Qed.

(** After the loop, the record of a student the batch names carries what the
    last entry for that student says, and the stamp of this request. *)
Lemma fold_effect_first_last entries : forall rows sid p n,
  last_data db entries sid = Some (p, n) ->
  exists r,
    first (hit sid) (fold_left effect entries rows) = Some r
    /\ present r = p /\ notes r = n
    /\ recorded_by r = current_user e /\ recorded_at r = utcnow e.
Proof.
  induction entries as [|a entries IH]; intros rows sid p n Hl; simpl in *;
    [discriminate|].
  destruct (last_data db entries sid) as [v|] eqn:Hrest.
  - injection Hl as ->. now apply IH.
  - destruct (resolvable_as db sid a) eqn:Ha; [|discriminate].
    injection Hl as <- <-.
    rewrite fold_effect_first_untouched by assumption.
    now apply effect_first_same.
Qed.

Lemma last_data_head_some a entries sid :
  resolvable_as db sid a = true -> last_data db (a :: entries) sid <> None.
Proof.
  intros Ha. simpl. rewrite Ha. now destruct (last_data db entries sid).
Qed.

Lemma last_data_tail_some a entries sid :
  last_data db entries sid <> None -> last_data db (a :: entries) sid <> None.
Proof.
  intros H. simpl. destruct (last_data db entries sid); [discriminate|contradiction].
Qed.

Lemma last_data_in entries a sid :
  In a entries -> resolvable_as db sid a = true -> last_data db entries sid <> None.
Proof.
  induction entries as [|b entries IH]; intros Hin Ha; [contradiction|].
  destruct Hin as [->|Hin].
  - now apply last_data_head_some.
  - apply last_data_tail_some. auto.
Qed.

(** *** A second run over records that are all there *)

Abbreviation touch := (entry_touch db cid d).

Lemma effect_touch rows rows' a :
  map unstamped rows = map unstamped rows' ->
  (forall sid, resolvable_as db sid a = true -> first (hit sid) rows <> None) ->
  map unstamped (effect rows a) = map unstamped (touch rows' a).
Proof.
  intros Hmap Hthere. unfold entry_touch.
  destruct (effect_cases rows a)
    as [[Hn ->]|[(sid & r & Hr & Hf & ->)|(sid & Hr & Hf & _)]].
  - unfold resolvable in Hn. destruct (entry_student_id a); [assumption|].
    now rewrite Hn.
  - apply resolvable_as_spec in Hr as [-> ->].
    rewrite (map_update_first_commute _ _ unstamped
               (set_data (entry_present a) (entry_notes a))) by reflexivity.
    rewrite (map_update_first_commute _ _ unstamped
               (set_data (entry_present a) (entry_notes a))) by reflexivity.
    now rewrite Hmap.
  - exfalso. now apply (Hthere sid).
Qed.

Lemma fold_effect_touch entries : forall rows rows',
  map unstamped rows = map unstamped rows' ->
  (forall sid, last_data db entries sid <> None -> first (hit sid) rows <> None) ->
  map unstamped (fold_left effect entries rows)
  = map unstamped (fold_left touch entries rows').
Proof.
  induction entries as [|a entries IH]; intros rows rows' Hmap Hthere;
    [assumption|].
  cbn [fold_left]. apply IH.
  - apply effect_touch; [assumption|].
    intros sid Hr. apply Hthere. now apply last_data_head_some.
  - intros sid Hl.
    destruct (first (hit sid) rows) as [r0|] eqn:H0.
    + destruct (effect_first_id rows a sid r0 H0) as (r & -> & _). discriminate.
    + exfalso. apply (Hthere sid); [now apply last_data_tail_some|assumption].
Qed.

Lemma touch_resolvable rows a sid :
  resolvable_as db sid a = true ->
  touch rows a
  = update_first (hit sid) (set_data (entry_present a) (entry_notes a)) rows.
Proof.
  intros Hr. apply resolvable_as_spec in Hr as [Hs Hq].
  unfold entry_touch. now rewrite Hs, Hq.
Qed.

Lemma touch_swap rows a sid p n :
  resolvable_as db sid a = false ->
  touch (update_first (hit sid) (set_data p n) rows) a
  = update_first (hit sid) (set_data p n) (touch rows a).
Proof.
  intros Hr. unfold entry_touch, resolvable_as in *.
  destruct (entry_student_id a) as [ex|k]; [reflexivity|].
  destruct (query_get (students db) k); [|reflexivity].
  rewrite andb_true_r in Hr. apply Z.eqb_neq in Hr.
  apply update_first_swap; try reflexivity.
  intros r Hk. now apply (hit_other k sid).
Qed.

(** An assignment that a later entry of the batch overwrites leaves no
    trace. *)
Lemma fold_touch_absorb entries : forall rows sid p n,
  last_data db entries sid <> None ->
  fold_left touch entries (update_first (hit sid) (set_data p n) rows)
  = fold_left touch entries rows.
Proof.
  induction entries as [|a entries IH]; intros rows sid p n Hl;
    [now contradiction Hl|].
  cbn [fold_left].
  destruct (resolvable_as db sid a) eqn:Ha.
  - rewrite !(touch_resolvable _ a sid Ha).
    rewrite update_first_twice by reflexivity.
    f_equal.
  - rewrite touch_swap by assumption. apply IH.
    simpl in Hl. rewrite Ha in Hl.
    now destruct (last_data db entries sid).
Qed.

Lemma set_data_same p n r : present r = p -> notes r = n -> set_data p n r = r.
Proof. intros <- <-. now destruct r. Qed.

(** Records that already carry, for each student of the batch, what the last
    entry for that student says are left as they are. *)
Lemma fold_touch_fixed entries : forall rows,
  (forall sid p n r,
      last_data db entries sid = Some (p, n) ->
      first (hit sid) rows = Some r -> present r = p /\ notes r = n) ->
  fold_left touch entries rows = rows.
Proof.
  induction entries as [|a entries IH]; intros rows Hinv; [reflexivity|].
  cbn [fold_left].
  assert (Htail : forall sid p n r,
            last_data db entries sid = Some (p, n) ->
            first (hit sid) rows = Some r -> present r = p /\ notes r = n).
  { intros sid p n r Hl. apply Hinv. simpl. now rewrite Hl. }
  destruct (entry_student_id a) as [ex|sid] eqn:Hs;
    [unfold entry_touch; rewrite Hs; now apply IH|].
  destruct (query_get (students db) sid) eqn:Hq;
    [|unfold entry_touch; rewrite Hs, Hq; now apply IH].
  assert (Ha : resolvable_as db sid a = true) by (apply resolvable_as_spec; auto).
  rewrite (touch_resolvable _ a sid Ha).
  destruct (last_data db entries sid) as [v|] eqn:Hl.
  - rewrite fold_touch_absorb by congruence. now apply IH.
  - rewrite update_first_fixed; [now apply IH|].
    intros r Hr. apply set_data_same; eapply Hinv; try eassumption;
      simpl; now rewrite Hl, Ha.
Qed.

End Session.

(** Running the batch again over its own result changes nothing but
    stamps. *)
Lemma fold_effect_again e e' db cid d entries rows :
  map unstamped
      (fold_left (entry_effect e' db cid d) entries
                 (fold_left (entry_effect e db cid d) entries rows))
  = map unstamped (fold_left (entry_effect e db cid d) entries rows).
Proof.
  set (done := fold_left (entry_effect e db cid d) entries rows).
  assert (Hlast : forall sid p n,
             last_data db entries sid = Some (p, n) ->
             exists r, first (filter_by_triple sid cid d) done = Some r
                       /\ present r = p /\ notes r = n).
  { intros sid p n Hl.
    destruct (fold_effect_first_last e db cid d entries rows sid p n Hl)
      as (r & Hr & Hp & Hn & _).
    eauto. }
  rewrite (fold_effect_touch e' db cid d entries done done eq_refl).
  - f_equal. apply fold_touch_fixed.
    intros sid p n r Hl Hr. destruct (Hlast sid p n Hl) as (r' & Hr' & Hp & Hn).
    split; congruence.
  - intros sid Hl.
    destruct (last_data db entries sid) as [[p n]|] eqn:Hd; [|contradiction].
    destruct (Hlast sid p n Hd) as (r & -> & _). discriminate.
Qed.

(** ** The routes *)

Section RouteFacts.

Variable strptime_ymd : string -> option date.

Abbreviation get_attendances := (get_attendances strptime_ymd).
Abbreviation create_attendance := (create_attendance strptime_ymd).
Abbreviation create_bulk_attendance := (create_bulk_attendance strptime_ymd).
Abbreviation preconditions := (preconditions strptime_ymd).

(** *** Listing *)

(** C9: in the list operation a [student_id] or [class_id] parameter whose
    integer value is 0 is treated as if the filter were absent: the answer is
    the one given without that parameter, and with both at 0 and no date it
    is the whole table. *)
Theorem get_attendances_zero_is_no_filter db sid cid ds :
  get_attendances db (mkArgs (Some 0) cid ds) = get_attendances db (mkArgs None cid ds)
  /\ get_attendances db (mkArgs sid (Some 0) ds) = get_attendances db (mkArgs sid None ds)
  /\ get_attendances db (mkArgs (Some 0) (Some 0) None)
     = JsonList 200 (map to_dict (attendances db)).
Proof. repeat split. Qed.

(** *** Preconditions of the bulk operation *)

Lemma preconditions_pass e db data cid d entries :
  preconditions db data = Some (cid, d, entries) ->
  create_bulk_attendance e db data =
  match bulk_loop e db cid d entries (mkLoop (attendances db) [] []) with
  | inl ex => (db, JsonError 500 (str_exn ex))
  | inr st =>
      commit e db (session st)
             (JsonBulk 201
                ("Processed " ++ str_len (created_records st)
                   ++ " attendance records")%string
                (created_records st) (errors st))
  end.
Proof.
  unfold preconditions, create_bulk_attendance.
  destruct (b_class_id data) as [c|]; [|discriminate].
  destruct (b_date data) as [[ds|v]|]; [|discriminate|discriminate].
  destruct (b_attendances data) as [es|]; [|discriminate].
  destruct (strptime_ymd ds) as [dd|]; [|discriminate].
  destruct (iterate es) as [ex|l]; [discriminate|].
  destruct (query_get (classes db) c); [|discriminate].
  intros H. injection H as -> -> ->. reflexivity.
Qed.

(** When [class_id], [date] or [attendances] is missing, the date is a string
    that does not parse, or the class does not exist, and the date, if there
    is one, is a string, the bulk operation answers 400 (missing field, bad
    date) or 404 (class not found), the table is left as it was, and the
    answer does not depend on the value of [attendances]. *)
Lemma bulk_precondition_failure e db data :
  (forall v, b_date data <> Some (NotText v)) ->
  b_class_id data = None \/ b_date data = None \/ b_attendances data = None
  \/ (exists ds, b_date data = Some (Text ds) /\ strptime_ymd ds = None)
  \/ (exists cid, b_class_id data = Some cid /\ query_get (classes db) cid = false) ->
  fst (create_bulk_attendance e db data) = db
  /\ (exists status msg,
        snd (create_bulk_attendance e db data) = JsonError status msg
        /\ (status = 400 \/ status = 404)
        /\ (b_class_id data = None \/ b_date data = None \/ b_attendances data = None
            -> status = 400)
        /\ (forall cid ds entries,
              b_class_id data = Some cid -> b_date data = Some (Text ds) ->
              b_attendances data = Some entries ->
              (strptime_ymd ds = None -> status = 400 /\ msg = invalid_date_msg)
              /\ (strptime_ymd ds <> None -> status = 404)))
  /\ (forall entries,
        create_bulk_attendance e db (with_entries data entries)
        = create_bulk_attendance e db data).
Proof.
  intros Htext H. unfold create_bulk_attendance, with_entries.
  destruct data as [c ds es]; simpl in *.
  destruct c as [c|]; [|split; [reflexivity|split; [|reflexivity]];
    exists 400, "class_id is required"; repeat split; auto; intros; discriminate].
  destruct ds as [[ds|v]|];
    [|now destruct (Htext v)
     |split; [reflexivity|split; [|reflexivity]];
      exists 400, "date is required"; repeat split; auto; intros; discriminate].
  destruct es as [es|]; [|split; [reflexivity|split; [|reflexivity]];
    exists 400, "attendances is required"; repeat split; auto; intros; discriminate].
  destruct (strptime_ymd ds) as [d|] eqn:Hd.
  - destruct (query_get (classes db) c) eqn:Hc; simpl.
    + exfalso.
      destruct H as [H|[H|[H|[(ds' & H & H')|(c' & H & H')]]]]; try discriminate.
      * injection H as <-. congruence.
      * injection H as <-. congruence.
    + split; [reflexivity|split; [|reflexivity]].
      exists 404, "Class not found".
      split; [reflexivity|]. split; [now right|]. split.
      * intros [?|[?|?]]; discriminate.
      * intros cid ds0 es0 _ Hds _. injection Hds as <-. split; congruence.
  - split; [reflexivity|split; [|reflexivity]].
    exists 400, invalid_date_msg.
    split; [reflexivity|]. split; [now left|]. split; [reflexivity|].
    intros cid ds0 es0 _ Hds _. injection Hds as <-. split; [auto|congruence].
Qed.

(** C4, at the input that breaks it: when [date] is present and is not a
    string (null, a number), [strptime] raises a [TypeError] that the
    [except ValueError] around it does not catch; the request is answered
    500 by the outer [except], not 400, whatever the class and the entries
    are, and the table is left as it was. *)
Theorem bulk_non_string_date_is_500 e db data cid v entries :
  b_class_id data = Some cid ->
  b_date data = Some (NotText v) ->
  b_attendances data = Some entries ->
  create_bulk_attendance e db data
  = (db, JsonError 500 (str_exn (strptime_type_error v))).
Proof.
  intros Hc Hd He. unfold create_bulk_attendance. now rewrite Hc, Hd, He.
Qed.

(** A value of [attendances] that cannot be iterated (null, a number) passes
    the check for the field and stops the request at the [for]: the answer
    is 500 and the table is left as it was. *)
Lemma bulk_not_iterable_is_500 e db data cid ds d v ex :
  b_class_id data = Some cid ->
  b_date data = Some (Text ds) ->
  b_attendances data = Some v ->
  strptime_ymd ds = Some d ->
  query_get (classes db) cid = true ->
  iterate v = inl ex ->
  create_bulk_attendance e db data = (db, JsonError 500 (str_exn ex)).
Proof.
  intros Hc Hd Ha Hp Hq Hi. unfold create_bulk_attendance.
  now rewrite Hc, Hd, Ha, Hp, Hq, Hi.
Qed.

(** *** The loop of the bulk operation *)

Lemma process_entry_other e db cid d st v :
  process_entry e db cid d st (EOther v)
  = inl (AttributeError ("'" ++ type_name v ++ "' object has no attribute 'get'")%string).
Proof. unfold process_entry, try_entry. destruct v; reflexivity. Qed.

Lemma process_entry_object e db cid d st a :
  is_object a = true ->
  exists st',
    process_entry e db cid d st a = inr st'
    /\ session st' = entry_effect e db cid d (session st) a
    /\ List.length (created_records st')
       = (List.length (created_records st) + if resolvable db a then 1 else 0)%nat
    /\ List.length (errors st')
       = (List.length (errors st) + if resolvable db a then 0 else 1)%nat.
Proof.
  destruct a as [[sid|] p n|v]; [| |discriminate]; intros _.
  - unfold process_entry, try_entry, entry_effect, resolvable; simpl.
    destruct (query_get (students db) sid); simpl.
    + destruct (first (filter_by_triple sid cid d) (session st)); eexists;
        (split; [reflexivity|]); simpl; rewrite ?length_app; simpl;
        repeat split; lia.
    + eexists. split; [reflexivity|]. simpl. rewrite length_app. simpl.
      repeat split; lia.
  - unfold process_entry, try_entry, entry_effect, resolvable; simpl.
    eexists. split; [reflexivity|]. simpl. rewrite length_app. simpl.
    repeat split; lia.
Qed.

Lemma bulk_loop_objects e db cid d entries : forall st,
  forallb is_object entries = true ->
  exists st',
    bulk_loop e db cid d entries st = inr st'
    /\ session st' = fold_left (entry_effect e db cid d) entries (session st)
    /\ List.length (created_records st')
       = (List.length (created_records st)
          + List.length (filter (resolvable db) entries))%nat
    /\ List.length (errors st')
       = (List.length (errors st)
          + List.length (filter (fun a => negb (resolvable db a)) entries))%nat.
Proof.
  induction entries as [|a entries IH]; intros st Hobj; simpl in *.
  - exists st. repeat split; lia.
  - apply andb_true_iff in Hobj as [Ha Hrest].
    destruct (process_entry_object e db cid d st a Ha) as (st1 & -> & Hs & Hc & He).
    destruct (IH st1 Hrest) as (st' & Hl & Hs' & Hc' & He').
    exists st'. rewrite Hl, Hs', Hc', He', Hs, Hc, He.
    destruct (resolvable db a); simpl; repeat split; lia.
Qed.

Lemma bulk_loop_completes e db cid d entries : forall st st',
  bulk_loop e db cid d entries st = inr st' -> forallb is_object entries = true.
Proof.
  induction entries as [|a entries IH]; intros st st' H; simpl in *; [reflexivity|].
  destruct a as [sid p n|v].
  - destruct (process_entry e db cid d st (EObject sid p n)); [discriminate|].
    simpl. eauto.
  - rewrite process_entry_other in H. discriminate.
Qed.

Lemma bulk_loop_aborts e db cid d before v after : forall st,
  forallb is_object before = true ->
  bulk_loop e db cid d (before ++ EOther v :: after) st
  = inl (AttributeError ("'" ++ type_name v ++ "' object has no attribute 'get'")%string).
Proof.
  induction before as [|a before IH]; intros st Hobj; simpl in *.
  - now rewrite process_entry_other.
  - apply andb_true_iff in Hobj as [Ha Hrest].
    destruct (process_entry_object e db cid d st a Ha) as (st1 & -> & _).
    now apply IH.
Qed.

(** What a bulk request that was answered 201 went through. *)
Lemma bulk_created e db data db' resp :
  create_bulk_attendance e db data = (db', resp) ->
  status_of resp = 201 ->
  exists cid d entries st,
    preconditions db data = Some (cid, d, entries)
    /\ forallb is_object entries = true
    /\ commit_failure e = None
    /\ bulk_loop e db cid d entries (mkLoop (attendances db) [] []) = inr st
    /\ session st = fold_left (entry_effect e db cid d) entries (attendances db)
    /\ db' = with_attendances db (session st)
    /\ resp = JsonBulk 201
                ("Processed " ++ str_len (created_records st)
                   ++ " attendance records")%string
                (created_records st) (errors st).
Proof.
  intros H Hst.
  destruct (preconditions db data) as [[[cid d] entries]|] eqn:Hpre.
  - rewrite (preconditions_pass e db data cid d entries Hpre) in H.
    destruct (bulk_loop e db cid d entries (mkLoop (attendances db) [] []))
      as [ex|st] eqn:Hloop.
    + injection H as <- <-. discriminate.
    + unfold commit in H. destruct (commit_failure e) eqn:Hc.
      * injection H as <- <-. discriminate.
      * injection H as <- <-.
        pose proof (bulk_loop_completes _ _ _ _ _ _ _ Hloop) as Hobj.
        destruct (bulk_loop_objects e db cid d entries (mkLoop (attendances db) [] []) Hobj)
          as (st2 & Hl2 & Hs2 & _).
        rewrite Hloop in Hl2. injection Hl2 as <-.
        exists cid, d, entries, st. repeat split; auto.
  - exfalso. revert H Hpre. unfold create_bulk_attendance, preconditions.
    destruct (b_class_id data) as [c|];
      [|intros H; injection H as <- <-; discriminate].
    destruct (b_date data) as [[ds|v]|];
      [|destruct (b_attendances data); intros H; injection H as <- <-; discriminate
       |intros H; injection H as <- <-; discriminate].
    destruct (b_attendances data) as [a|];
      [|intros H; injection H as <- <-; discriminate].
    destruct (strptime_ymd ds); [|intros H; injection H as <- <-; discriminate].
    destruct (query_get (classes db) c); simpl;
      [|intros H; injection H as <- <-; discriminate].
    destruct (iterate a); [intros H; injection H as <- <-; discriminate|].
    discriminate.
Qed.

(** An entry whose student does not exist is reported and skipped. *)
Lemma process_entry_student_not_found e db cid d st a sid :
  entry_student_id a = inr sid ->
  query_get (students db) sid = false ->
  process_entry e db cid d st a
  = inr (mkLoop (session st) (created_records st)
                (errors st ++ [("Student " ++ str_int sid ++ " not found")%string])).
Proof.
  intros Hsid Hq. unfold process_entry, try_entry. now rewrite Hsid, Hq.
Qed.

(** An object without [student_id] is reported under the label "unknown". *)
Lemma process_entry_no_student_id e db cid d st p n :
  process_entry e db cid d st (EObject None p n)
  = inr (mkLoop (session st) (created_records st)
                (errors st ++ ["Error processing student unknown: 'student_id'"])).
Proof. reflexivity. Qed.

(** C6, at the entry that breaks it: an element of the [attendances] array
    that is not a JSON object makes the loop's own [except] clause raise, so
    the batch is aborted with a 500 and nothing of it is stored, whatever the
    entries before it did. *)
Theorem bulk_non_object_entry_aborts e db data cid d before v after :
  preconditions db data = Some (cid, d, before ++ EOther v :: after) ->
  forallb is_object before = true ->
  create_bulk_attendance e db data
  = (db, JsonError 500 ("'" ++ type_name v ++ "' object has no attribute 'get'")%string).
Proof.
  intros Hpre Hobj. rewrite (preconditions_pass e db data _ _ _ Hpre).
  now rewrite bulk_loop_aborts.
Qed.

(** C5: when the commit fails after the loop has run, the table is the one
    from before the request, updates to rows that existed included, and the
    answer is a 500 carrying the failure instead of the lists the loop
    collected. *)
Theorem bulk_commit_failure_rolls_back e db data cid d entries st ex :
  preconditions db data = Some (cid, d, entries) ->
  bulk_loop e db cid d entries (mkLoop (attendances db) [] []) = inr st ->
  commit_failure e = Some ex ->
  create_bulk_attendance e db data = (db, JsonError 500 (str_exn ex)).
Proof.
  intros Hpre Hloop Hc. rewrite (preconditions_pass e db data _ _ _ Hpre), Hloop.
  unfold commit. now rewrite Hc.
Qed.

(** C3, as the code has it: in the answer of a bulk request that went
    through, [created] has one element per entry whose student exists and
    [errors] one per other entry, so together they are as many as the entries
    submitted. *)
Theorem bulk_counts e db data db' status msg created errs :
  create_bulk_attendance e db data = (db', JsonBulk status msg created errs) ->
  exists cid d entries,
    preconditions db data = Some (cid, d, entries)
    /\ List.length created = List.length (filter (resolvable db) entries)
    /\ List.length errs
       = List.length (filter (fun a => negb (resolvable db a)) entries)
    /\ (List.length errs + List.length created = List.length entries)%nat.
Proof.
  intros H.
  assert (Hst : status = 201).
  { revert H. unfold create_bulk_attendance, commit.
    split_matches; intros H; try discriminate; now injection H. }
  subst status.
  destruct (bulk_created e db data db' _ H eq_refl)
    as (cid & d & entries & st & Hpre & Hobj & Hc & Hloop & _ & _ & Hresp).
  injection Hresp as -> -> ->.
  destruct (bulk_loop_objects e db cid d entries (mkLoop (attendances db) [] []) Hobj)
    as (st2 & Hl2 & _ & Hcr & Her).
  rewrite Hloop in Hl2. injection Hl2 as <-. simpl in Hcr, Her.
  exists cid, d, entries. repeat split; auto.
  rewrite Hcr, Her. clear.
  induction entries as [|a entries IH]; simpl; [reflexivity|].
  destruct (resolvable db a); simpl; lia.
Qed.

(** C7: for a triple that already has a record, the single create answers 400
    with the duplicate error and leaves the table as it was, while the bulk
    operation with one entry for the same triple overwrites that record
    without an error message and answers 201 (unless its commit fails). *)
Theorem create_rejects_bulk_updates e db sid cid ds d p n existing :
  strptime_ymd ds = Some d ->
  query_get (students db) sid = true ->
  query_get (classes db) cid = true ->
  first (filter_by_triple sid cid d) (attendances db) = Some existing ->
  create_attendance e db (mkCreate (Some sid) (Some cid) (Some (Text ds)) p n)
  = (db, JsonError 400
           "Attendance record already exists for this student, class, and date")
  /\ create_bulk_attendance e db (mkBulk (Some cid) (Some (Text ds))
         (Some (AArray [EObject (Some sid) p n])))
     = match commit_failure e with
       | None =>
           (with_attendances db
              (update_first (filter_by_triple sid cid d)
                 (set_presence (default_present p) n (current_user e) (utcnow e))
                 (attendances db)),
            JsonBulk 201 "Processed 1 attendance records"
              [to_dict (set_presence (default_present p) n (current_user e) (utcnow e)
                                     existing)]
              [])
       | Some ex => (db, JsonError 500 (str_exn ex))
       end.
Proof.
  intros Hd Hs Hc Hex. split.
  - unfold create_attendance; simpl. now rewrite Hd, Hs, Hc, Hex.
  - unfold create_bulk_attendance, commit; simpl. rewrite Hd, Hc; simpl.
    unfold process_entry, try_entry; simpl. rewrite Hs, Hex; simpl.
    now destruct (commit_failure e).
Qed.

(** *** Updating one record *)

Lemma first_by_id_update k f rows :
  (forall r, id (f r) = id r) ->
  first (by_id k) (update_first (by_id k) f rows) = option_map f (first (by_id k) rows).
Proof.
  intros Hf. apply first_update_same. intros r. unfold by_id. now rewrite Hf.
Qed.

(** C10: in an update of an existing record, the record as the handler leaves
    it has [recorded_by] the acting user and [recorded_at] the current time,
    whatever the body holds, and its id, student, class and date are the ones
    it had; a commit that succeeds stores exactly that record, a commit that
    fails stores nothing, and in both cases no row's student, class or date
    differs after the operation. *)
Theorem update_attendance_stamps e db k data existing :
  first (by_id k) (attendances db) = Some existing ->
  recorded_by (apply_update e data existing) = current_user e
  /\ recorded_at (apply_update e data existing) = utcnow e
  /\ id (apply_update e data existing) = id existing
  /\ triple_of (apply_update e data existing) = triple_of existing
  /\ map triple_of (attendances (fst (update_attendance e db k data)))
     = map triple_of (attendances db)
  /\ match commit_failure e with
     | None =>
         first (by_id k) (attendances (fst (update_attendance e db k data)))
         = Some (apply_update e data existing)
         /\ snd (update_attendance e db k data)
            = JsonRecord 200 (to_dict (apply_update e data existing))
     | Some ex => update_attendance e db k data = (db, JsonError 500 (str_exn ex))
     end.
Proof.
  intros Hex. unfold update_attendance, commit. rewrite Hex.
  assert (Hkeep : forall r, triple_of (apply_update e data r) = triple_of r).
  { intros r. unfold apply_update. destruct (u_present data), (u_notes data); reflexivity. }
  assert (Hid : forall r, id (apply_update e data r) = id r).
  { intros r. unfold apply_update. destruct (u_present data), (u_notes data); reflexivity. }
  split; [reflexivity|]. split; [reflexivity|].
  split; [apply Hid|]. split; [apply Hkeep|].
  destruct (commit_failure e) as [ex|]; cbn [fst snd attendances with_attendances].
  - split; reflexivity.
  - split; [now apply map_update_first|].
    rewrite (first_by_id_update k _ _ Hid), Hex.
    cbn [option_map]. split; reflexivity.
Qed.

(** *** The table after a batch *)

Lemma entry_effect_students e db rows :
  entry_effect e (with_attendances db rows) = entry_effect e db.
Proof. reflexivity. Qed.

Lemma unstamped_same_length (q : Attendance -> bool) rows rows' :
  (forall r, q (unstamped r) = q r) ->
  map unstamped rows = map unstamped rows' ->
  List.length (filter q rows) = List.length (filter q rows').
Proof.
  intros Hq Hmap.
  rewrite <- (filter_map_length q unstamped rows Hq).
  rewrite <- (filter_map_length q unstamped rows' Hq).
  now rewrite Hmap.
Qed.

(** The single create and the update keep the triples unique as well. *)
Lemma create_attendance_unique e db data :
  unique_triples (attendances db) ->
  unique_triples (attendances (fst (create_attendance e db data))).
Proof.
  intros Hu. unfold create_attendance, commit.
  repeat match goal with
         | |- context [match ?x with _ => _ end] => destruct x eqn:?
         end; try assumption.
  cbn [fst attendances with_attendances]. unfold session_add.
  intros ks kc kd. unfold count_triple. rewrite filter_app, length_app. simpl.
  destruct (filter_by_triple ks kc kd _) eqn:Hn; simpl.
  - apply filter_by_triple_spec in Hn. unfold triple_of in Hn. simpl in Hn.
    injection Hn as <- <- <-.
    match goal with
    | H : first _ _ = None |- _ => rewrite (first_absent_filter _ _ H)
    end.
    simpl. lia.
  - specialize (Hu ks kc kd). unfold count_triple in Hu. lia.
Qed.

Lemma update_attendance_unique e db k data :
  unique_triples (attendances db) ->
  unique_triples (attendances (fst (update_attendance e db k data))).
Proof.
  intros Hu. unfold update_attendance, commit.
  destruct (first (by_id k) (attendances db)); [|assumption].
  destruct (commit_failure e); [assumption|].
  cbn [fst attendances with_attendances].
  intros s c dd. unfold count_triple.
  rewrite filter_update_first_length; [apply Hu|].
  intros r. unfold apply_update. now destruct (u_present data), (u_notes data).
Qed.

(** C1: if no triple (student, class, date) has more than one record before a
    bulk request, none has after it; and when the request is answered 201, an
    entry whose student exists and whose triple already had a record leaves
    that record, under its id, with [present] and [notes] as the last entry
    for that student gives them and with the stamp of this request, and it is
    the only record of the triple. *)
Theorem bulk_upsert_keeps_triples_unique e db data db' resp :
  unique_triples (attendances db) ->
  create_bulk_attendance e db data = (db', resp) ->
  unique_triples (attendances db')
  /\ (forall cid d entries a sid existing,
        status_of resp = 201 ->
        preconditions db data = Some (cid, d, entries) ->
        In a entries -> resolvable_as db sid a = true ->
        first (filter_by_triple sid cid d) (attendances db) = Some existing ->
        exists r p n,
          first (filter_by_triple sid cid d) (attendances db') = Some r
          /\ id r = id existing
          /\ last_data db entries sid = Some (p, n)
          /\ present r = p /\ notes r = n
          /\ recorded_by r = current_user e /\ recorded_at r = utcnow e
          /\ count_triple sid cid d (attendances db') = 1%nat).
Proof.
  intros Hu H.
  assert (Hu' : unique_triples (attendances db')).
  { destruct (Z.eq_dec (status_of resp) 201) as [Hst|Hst].
    - destruct (bulk_created e db data db' resp H Hst)
        as (cid & d & entries & st & _ & _ & _ & _ & Hs & -> & _).
      simpl. rewrite Hs. now apply fold_effect_unique.
    - replace db' with db; [assumption|].
      revert H Hst. unfold create_bulk_attendance, commit.
      split_matches; intros H; injection H as <- <-; auto.
      simpl. congruence. }
  split; [assumption|].
  intros cid d entries a sid existing Hst Hpre Hin Ha Hex.
  destruct (bulk_created e db data db' resp H Hst)
    as (cid' & d' & entries' & st & Hpre' & _ & _ & _ & Hs & -> & _).
  rewrite Hpre in Hpre'. injection Hpre' as <- <- <-.
  cbn [attendances with_attendances] in *. rewrite Hs in *.
  destruct (last_data db entries sid) as [[p n]|] eqn:Hl;
    [|now destruct (last_data_in db entries a sid Hin Ha)].
  destruct (fold_effect_first_last e db cid d entries (attendances db) sid p n Hl)
    as (r & Hr & Hp & Hn & Hby & Hat).
  destruct (fold_effect_first_id e db cid d entries (attendances db) sid existing Hex)
    as (r' & Hr' & Hid).
  exists r, p, n. repeat split; try assumption.
  - congruence.
  - pose proof (Hu' sid cid d) as Hle.
    pose proof (first_some_counted _ _ _ Hr) as Hge.
    unfold count_triple in *. lia.
Qed.

(** C2, as the code has it: after a batch was answered 201, submitting the
    same batch again leaves as many records as before, in all, per class and
    day and per triple, and every record keeps its id, student, class, date,
    [present] and [notes]; when the second commit succeeds the answer is 201
    again and the record of every student the batch names carries the user and
    the time of the second submission as [recorded_by] and [recorded_at]. *)
Theorem bulk_resubmission_keeps_records e1 e2 db data db1 resp1 db2 resp2 :
  create_bulk_attendance e1 db data = (db1, resp1) ->
  status_of resp1 = 201 ->
  create_bulk_attendance e2 db1 data = (db2, resp2) ->
  map unstamped (attendances db2) = map unstamped (attendances db1)
  /\ List.length (attendances db2) = List.length (attendances db1)
  /\ (forall cid d,
        count_class_date cid d (attendances db2)
        = count_class_date cid d (attendances db1))
  /\ (forall sid cid d,
        count_triple sid cid d (attendances db2)
        = count_triple sid cid d (attendances db1))
  /\ (commit_failure e2 = None ->
      status_of resp2 = 201
      /\ forall cid d entries sid,
           preconditions db data = Some (cid, d, entries) ->
           last_data db entries sid <> None ->
           exists r,
             first (filter_by_triple sid cid d) (attendances db2) = Some r
             /\ recorded_by r = current_user e2 /\ recorded_at r = utcnow e2).
Proof.
  intros H1 Hst1 H2.
  destruct (bulk_created e1 db data db1 resp1 H1 Hst1)
    as (cid & d & entries & st1 & Hpre & Hobj & _ & _ & Hs1 & -> & _).
  assert (Hpre2 : preconditions (with_attendances db (session st1)) data
                  = Some (cid, d, entries)) by exact Hpre.
  rewrite (preconditions_pass e2 _ data _ _ _ Hpre2) in H2.
  destruct (bulk_loop_objects e2 (with_attendances db (session st1)) cid d entries
              (mkLoop (session st1) [] []) Hobj) as (st2 & Hl2 & Hs2 & _).
  cbn [attendances with_attendances] in H2. rewrite Hl2 in H2.
  cbn [session] in Hs2. rewrite entry_effect_students in Hs2.
  assert (Hmap : map unstamped (session st2) = map unstamped (session st1)).
  { rewrite Hs2, Hs1. apply fold_effect_again. }
  assert (Hgoal : map unstamped (attendances db2) = map unstamped (session st1)
                  /\ (commit_failure e2 = None ->
                      status_of resp2 = 201 /\ attendances db2 = session st2)).
  { unfold commit in H2. destruct (commit_failure e2).
    - injection H2 as <- <-. split; [reflexivity|discriminate].
    - injection H2 as <- <-. split; [exact Hmap|auto]. }
  destruct Hgoal as [Hm Hok]. cbn [attendances with_attendances].
  split; [exact Hm|].
  split; [rewrite <- (length_map unstamped), Hm; apply length_map|].
  split; [intros c dd; now apply unstamped_same_length|].
  split; [intros s c dd; now apply unstamped_same_length|].
  intros Hc. destruct (Hok Hc) as [Hst2 Hdb2]. split; [assumption|].
  intros cid' d' entries' sid Hpre' Hl.
  rewrite Hpre in Hpre'. injection Hpre' as <- <- <-.
  destruct (last_data db entries sid) as [[p n]|] eqn:Hd; [|contradiction].
  rewrite Hdb2, Hs2.
  destruct (fold_effect_first_last e2 db cid d entries (session st1) sid p n Hd)
    as (r & Hr & _ & _ & Hby & Hat).
  exists r. auto.
Qed.

End RouteFacts.

(** ** The statements on the sample data *)

Lemma bulk_upsert_unique_sample :
  unique_triples
    (attendances (fst (create_bulk_attendance strptime_iso env_later db_one batch_late)))
  /\ exists r,
       first (filter_by_triple 1 5 day1)
             (attendances (fst (create_bulk_attendance strptime_iso env_later db_one
                                                       batch_late))) = Some r
       /\ id r = 1 /\ present r = false /\ notes r = Some "late"
       /\ recorded_at r = 2000.
Proof.
  assert (Hu : unique_triples (attendances db_one)).
  { intros s c dd. unfold count_triple. simpl.
    destruct (filter_by_triple s c dd row1); simpl; lia. }
  destruct (bulk_upsert_keeps_triples_unique strptime_iso env_later db_one batch_late
              _ _ Hu eq_refl) as [Huniq Hrec].
  split; [exact Huniq|].
  destruct (Hrec 5 day1 [EObject (Some 1) (Some false) (Some "late")]
                 (EObject (Some 1) (Some false) (Some "late")) 1 row1
                 eq_refl eq_refl (or_introl eq_refl) eq_refl eq_refl)
    as (r & p & n & Hr & Hid & Hl & Hp & Hn & _ & Hat & _).
  exists r. injection Hl as <- <-. repeat split; assumption.
Defined.

Lemma bulk_resubmission_sample :
  exists db1 db2,
    fst (create_bulk_attendance strptime_iso env_ok db_empty batch1) = db1
    /\ fst (create_bulk_attendance strptime_iso env_later db1 batch1) = db2
    /\ map unstamped (attendances db2) = map unstamped (attendances db1)
    /\ List.length (attendances db2) = 1%nat.
Proof.
  eexists. eexists. split; [reflexivity|]. split; [reflexivity|].
  destruct (bulk_resubmission_keeps_records strptime_iso env_ok env_later db_empty
              batch1 _ _ _ _ eq_refl eq_refl eq_refl) as (Hmap & Hlen & _).
  split; [exact Hmap|exact Hlen].
Defined.

(** The second submission is later than the first, and [recorded_at] says
    so. *)
Lemma bulk_resubmission_restamps :
  exists db1 resp1 db2 resp2,
    create_bulk_attendance strptime_iso env_ok db_empty batch1 = (db1, resp1)
    /\ status_of resp1 = 201
    /\ create_bulk_attendance strptime_iso env_later db1 batch1 = (db2, resp2)
    /\ status_of resp2 = 201
    /\ map recorded_at (attendances db1) = [1000]
    /\ map recorded_at (attendances db2) = [2000].
Proof. repeat eexists. Qed.

Lemma bulk_counts_sample :
  exists created errs,
    snd (create_bulk_attendance strptime_iso env_ok db_empty batch1)
    = JsonBulk 201 "Processed 1 attendance records" created errs
    /\ (List.length errs + List.length created = 2)%nat.
Proof.
  destruct (bulk_counts strptime_iso env_ok db_empty batch1 _ _ _ _ _ eq_refl)
    as (cid & d & entries & Hpre & _ & _ & Hsum).
  injection Hpre as <- <- <-.
  eexists. eexists. split; [reflexivity|exact Hsum].
Defined.

(** One entry of two names a student that exists, and the two lists of the
    answer hold two elements together. *)
Lemma bulk_counts_scenario :
  exists db' msg created errs,
    preconditions strptime_iso db_empty batch1 = Some (5, day1, entries1)
    /\ create_bulk_attendance strptime_iso env_ok db_empty batch1
       = (db', JsonBulk 201 msg created errs)
    /\ errs = ["Student 999 not found"]
    /\ (List.length errs + List.length created)%nat = 2%nat
    /\ List.length (filter (resolvable db_empty) entries1) = 1%nat
    /\ (List.length errs + List.length created)%nat
       <> List.length (filter (resolvable db_empty) entries1).
Proof. repeat eexists. discriminate. Qed.

Lemma bulk_precondition_failure_sample :
  fst (create_bulk_attendance strptime_iso env_ok db_one batch_bad_date) = db_one
  /\ snd (create_bulk_attendance strptime_iso env_ok db_one batch_bad_date)
     = JsonError 400 invalid_date_msg.
Proof.
  destruct (bulk_precondition_failure strptime_iso env_ok db_one batch_bad_date)
    as (Hdb & (status & msg & Hresp & _ & _ & Hdate) & _).
  - intros v. discriminate.
  - right. right. right. left. exists "03-01-2024". split; reflexivity.
  - split; [exact Hdb|].
    destruct (Hdate 5 "03-01-2024" (AArray [EObject (Some 1) (Some true) None])
                    eq_refl eq_refl eq_refl) as [Hbad _].
    destruct (Hbad eq_refl) as [-> ->]. exact Hresp.
Defined.

(** [{"class_id": 5, "date": null, "attendances": [{"student_id": 1}]}] for a
    class and a student that exist. *)
Lemma bulk_non_string_date_sample :
  create_bulk_attendance strptime_iso env_ok db_one batch_null_date
  = (db_one, JsonError 500 "strptime() argument 1 must be str, not None").
Proof.
  exact (bulk_non_string_date_is_500 strptime_iso env_ok db_one batch_null_date
           5 TNull (AArray [EObject (Some 1) None None]) eq_refl eq_refl eq_refl).
Defined.

Lemma bulk_commit_failure_sample :
  create_bulk_attendance strptime_iso env_fail db_one batch_late
  = (db_one, JsonError 500 "database is locked")
  /\ fst (create_bulk_attendance strptime_iso env_ok db_one batch_late) <> db_one.
Proof.
  split.
  - exact (bulk_commit_failure_rolls_back strptime_iso env_fail db_one batch_late
             5 day1 _ _ (StorageError "database is locked")
             eq_refl eq_refl eq_refl).
  - discriminate.
Defined.

Lemma bulk_non_object_entry_sample :
  create_bulk_attendance strptime_iso env_ok db_empty batch_number
  = (db_empty, JsonError 500 "'int' object has no attribute 'get'").
Proof.
  apply (bulk_non_object_entry_aborts strptime_iso env_ok db_empty batch_number
           5 day1 [EObject (Some 1) None None] (JNumber 7) []); reflexivity.
Defined.


Lemma create_rejects_bulk_updates_sample :
  create_attendance strptime_iso env_other db_one
    (mkCreate (Some 1) (Some 5) (Some (Text "2024-03-01")) (Some false) (Some "late"))
  = (db_one, JsonError 400
               "Attendance record already exists for this student, class, and date")
  /\ attendances
       (fst (create_bulk_attendance strptime_iso env_other db_one batch_late))
     = [mkAttendance 1 1 5 day1 false (Some "late") 43 3000].
Proof.
  destruct (create_rejects_bulk_updates strptime_iso env_other db_one 1 5 "2024-03-01"
              day1 (Some false) (Some "late") row1
              eq_refl eq_refl eq_refl eq_refl) as [Hone Hbulk].
  split; [exact Hone|].
  change batch_late
    with (mkBulk (Some 5) (Some (Text "2024-03-01"))
                 (Some (AArray [EObject (Some 1) (Some false) (Some "late")]))).
  rewrite Hbulk. reflexivity.
Defined.

Lemma update_attendance_sample :
  first (by_id 1)
        (attendances (fst (update_attendance env_other db_one 1 (mkUpdate None None))))
  = Some (mkAttendance 1 1 5 day1 true None 43 3000).
Proof.
  destruct (update_attendance_stamps env_other db_one 1 (mkUpdate None None) row1
              eq_refl) as (_ & _ & _ & _ & _ & Hr & _).
  exact Hr.
Defined.

(** ** More on lists: composed filters, fresh keys, deletion *)

Lemma filter_filter_and {A} (p q : A -> bool) (l : list A) :
  filter p (filter q l) = filter (fun a => q a && p a) l.
Proof.
  induction l as [|a l IH]; simpl; [reflexivity|].
  destruct (q a); simpl; [destruct (p a)|]; congruence.
Qed.

Lemma filter_all {A} (l : list A) : filter (fun _ => true) l = l.
Proof. induction l as [|a l IH]; simpl; congruence. Qed.

Lemma by_id_eq k r : by_id k r = true <-> id r = k.
Proof. unfold by_id. apply Z.eqb_eq. Qed.

Lemma fresh_id_above rows r : In r rows -> id r < fresh_id rows.
Proof.
  unfold fresh_id. induction rows as [|a rows IH]; cbn [fold_right In];
    [contradiction|].
  intros [->|Hin]; [lia|]. specialize (IH Hin). lia.
Qed.

Lemma first_by_id_fresh rows : first (by_id (fresh_id rows)) rows = None.
Proof.
  unfold first. destruct (find (by_id (fresh_id rows)) rows) as [r|] eqn:Hf;
    [|reflexivity].
  apply find_some in Hf as [Hin Hid]. unfold by_id in Hid.
  apply Z.eqb_eq in Hid. pose proof (fresh_id_above rows r Hin). lia.
Qed.

Lemma first_by_id_appended rows r :
  id r = fresh_id rows -> first (by_id (fresh_id rows)) (rows ++ [r]) = Some r.
Proof.
  intros Hid. rewrite first_append, first_by_id_fresh.
  now rewrite (proj2 (by_id_eq (fresh_id rows) r) Hid).
Qed.

Lemma first_none_all p rows r : first p rows = None -> In r rows -> p r = false.
Proof. unfold first. intros H Hin. exact (find_none p rows H r Hin). Qed.

Lemma first_in p rows r : first p rows = Some r -> In r rows.
Proof. unfold first. intros H. now apply find_some in H. Qed.

Lemma first_single p rows r :
  first p rows = Some r -> (List.length (filter p rows) <= 1)%nat ->
  filter p rows = [r].
Proof.
  unfold first. induction rows as [|a rows IH]; simpl; [discriminate|].
  destruct (p a) eqn:Ha.
  - intros H Hle. injection H as <-. simpl in Hle.
    destruct (filter p rows); [reflexivity|simpl in Hle; lia].
  - auto.
Qed.

Section Deletion.

Variables p q : Attendance -> bool.

Lemma delete_first_absent rows :
  first p rows = None -> delete_first p rows = rows.
Proof.
  unfold first. induction rows as [|a rows IH]; simpl; [reflexivity|].
  destruct (p a); [discriminate|]. intros H. now rewrite IH.
Qed.

Lemma delete_first_length rows r :
  first p rows = Some r ->
  S (List.length (delete_first p rows)) = List.length rows.
Proof.
  unfold first. induction rows as [|a rows IH]; simpl; [discriminate|].
  destruct (p a); [reflexivity|]. intros H. simpl. now rewrite IH.
Qed.

Lemma delete_first_filter_other rows :
  (forall r, p r = true -> q r = false) ->
  filter q (delete_first p rows) = filter q rows.
Proof.
  intros Hpq. induction rows as [|a rows IH]; simpl; [reflexivity|].
  destruct (p a) eqn:Ha.
  - now rewrite (Hpq a Ha).
  - simpl. now rewrite IH.
Qed.

Lemma delete_first_filter_length rows r :
  first p rows = Some r ->
  (List.length (filter q (delete_first p rows)) + (if q r then 1 else 0))%nat
  = List.length (filter q rows).
Proof.
  unfold first. induction rows as [|a rows IH]; simpl; [discriminate|].
  destruct (p a).
  - intros H. injection H as <-. destruct (q a); simpl; lia.
  - intros H. simpl. destruct (q a); simpl; rewrite <- (IH H); lia.
Qed.

Lemma delete_first_filter_le rows :
  (List.length (filter q (delete_first p rows)) <= List.length (filter q rows))%nat.
Proof.
  induction rows as [|a rows IH]; simpl; [lia|].
  destruct (p a); simpl; destruct (q a); simpl; lia.
Qed.

Lemma delete_first_appended rows a :
  first p rows = None -> p a = true -> delete_first p (rows ++ [a]) = rows.
Proof.
  unfold first. intros H Ha. induction rows as [|b rows IH]; simpl in *.
  - now rewrite Ha.
  - destruct (p b); [discriminate|]. now rewrite IH.
Qed.

Lemma delete_first_in rows r : In r (delete_first p rows) -> In r rows.
Proof.
  induction rows as [|a rows IH]; simpl; [auto|].
  destruct (p a); simpl; intuition.
Qed.

End Deletion.

Lemma delete_first_by_id_gone k rows :
  NoDup (map id rows) -> first (by_id k) (delete_first (by_id k) rows) = None.
Proof.
  unfold first. induction rows as [|a rows IH]; simpl; [reflexivity|].
  intros Hnd. inversion Hnd as [|x l Hnotin Hnd' Heq]; subst.
  destruct (by_id k a) eqn:Ha.
  - destruct (find (by_id k) rows) as [r|] eqn:Hf; [|reflexivity].
    apply find_some in Hf as [Hin Hr].
    apply by_id_eq in Ha, Hr. exfalso. apply Hnotin.
    rewrite Ha, <- Hr. now apply in_map.
  - simpl. rewrite Ha. auto.
Qed.

Lemma first_by_id_unique k rows r :
  NoDup (map id rows) -> In r rows -> id r = k -> first (by_id k) rows = Some r.
Proof.
  unfold first. induction rows as [|a rows IH]; simpl; [contradiction|].
  intros Hnd Hin Hid. inversion Hnd as [|x l Hnotin Hnd' Heq]; subst.
  destruct Hin as [->|Hin].
  - now rewrite (proj2 (by_id_eq (id r) r) eq_refl).
  - destruct (by_id (id r) a) eqn:Ha; [|auto].
    apply by_id_eq in Ha. exfalso. apply Hnotin. rewrite Ha. now apply in_map.
Qed.

Lemma filter_update_first_other (p q : Attendance -> bool) g rows :
  (forall r, p r = true -> q r = false) ->
  (forall r, q (g r) = q r) ->
  filter q (update_first p g rows) = filter q rows.
Proof.
  intros Hpq Hq. induction rows as [|a rows IH]; simpl; [reflexivity|].
  destruct (p a) eqn:Ha; simpl.
  - now rewrite Hq, (Hpq a Ha).
  - now rewrite IH.
Qed.

Lemma map_update_first_ext {B} (h : Attendance -> B) p g g' rows :
  (forall r, h (g r) = h (g' r)) ->
  map h (update_first p g rows) = map h (update_first p g' rows).
Proof.
  intros Hg. induction rows as [|a rows IH]; simpl; [reflexivity|].
  destruct (p a); simpl; congruence.
Qed.

Lemma first_absent_by_id k rows :
  (forall r, In r rows -> id r <> k) -> first (by_id k) rows = None.
Proof.
  intros Hno. unfold first.
  destruct (find (by_id k) rows) as [r|] eqn:Hf; [|reflexivity].
  apply find_some in Hf as [Hin Hr]. apply by_id_eq in Hr.
  now destruct (Hno r Hin).
Qed.

Lemma apply_update_id e data r : id (apply_update e data r) = id r.
Proof. unfold apply_update. now destruct (u_present data), (u_notes data). Qed.

Lemma apply_update_by_id e data k r :
  by_id k (apply_update e data r) = by_id k r.
Proof. unfold by_id. now rewrite apply_update_id. Qed.

(** ** The handlers beyond the bulk operation *)

Section Coverage.

Variable strptime_ymd : string -> option date.

Abbreviation get_attendances := (get_attendances strptime_ymd).
Abbreviation create_attendance := (create_attendance strptime_ymd).
Abbreviation create_bulk_attendance := (create_bulk_attendance strptime_ymd).
Abbreviation preconditions := (preconditions strptime_ymd).

(** *** Listing *)

Lemma opt_filter_filter {K} (v : option K) (p : K -> Attendance -> bool) rows :
  opt_filter v p rows
  = filter (fun a => match v with Some k => p k a | None => true end) rows.
Proof. destruct v; simpl; [reflexivity|]. now rewrite filter_all. Qed.

(** X1: the list operation applies its filters together: the answer holds, in
    storage order, the records that match every parameter that is given and
    truthy; a date that is given, not empty and does not parse is answered
    400 whatever the other parameters are. *)
Theorem get_attendances_filters db args :
  get_attendances db args =
  match truthy_str (q_date args) with
  | Some s =>
      match strptime_ymd s with
      | Some d =>
          JsonList 200
            (map to_dict
               (filter (matches_args (truthy_int (q_student_id args))
                                     (truthy_int (q_class_id args)) (Some d))
                       (attendances db)))
      | None => JsonError 400 invalid_date_msg
      end
  | None =>
      JsonList 200
        (map to_dict
           (filter (matches_args (truthy_int (q_student_id args))
                                 (truthy_int (q_class_id args)) None)
                   (attendances db)))
  end.
Proof.
  unfold get_attendances. rewrite !opt_filter_filter, filter_filter_and.
  destruct (truthy_str (q_date args)) as [s|].
  - destruct (strptime_ymd s) as [d|]; [|reflexivity].
    now rewrite filter_filter_and.
  - do 2 f_equal. apply filter_ext. intros a. unfold matches_args.
    now rewrite andb_true_r.
Qed.

(** *** Reading one record *)

(** X2: what GET /attendances/<id> returns is one of the records the list
    operation returns without parameters, and it carries the id asked for;
    when ids are unique, every listed record is the one GET returns for its
    id. *)
Theorem get_attendance_agrees_with_list db :
  (forall k x,
      get_attendance db k = JsonRecord 200 x ->
      d_id x = Some k
      /\ exists body,
           get_attendances db (mkArgs None None None) = JsonList 200 body
           /\ In x body)
  /\ (NoDup (map id (attendances db)) ->
      forall body x,
        get_attendances db (mkArgs None None None) = JsonList 200 body ->
        In x body ->
        exists k, d_id x = Some k /\ get_attendance db k = JsonRecord 200 x).
Proof.
  split.
  - intros k x. unfold get_attendance.
    destruct (first (by_id k) (attendances db)) as [r|] eqn:Hf; [|discriminate].
    intros H. injection H as <-. split.
    + simpl. f_equal. apply by_id_eq. now apply first_some_holds in Hf.
    + exists (map to_dict (attendances db)). split; [reflexivity|].
      apply in_map. now apply first_in in Hf.
  - intros Hnd body x H Hin. cbn in H. injection H as <-.
    apply in_map_iff in Hin as (r & <- & Hin).
    exists (id r). split; [reflexivity|]. unfold get_attendance.
    now rewrite (first_by_id_unique (id r) _ r Hnd Hin eq_refl).
Qed.

(** *** Creating one record *)

Lemma create_attendance_created e db data db' resp :
  create_attendance e db data = (db', resp) ->
  status_of resp = 201 ->
  exists sid cid ds d,
    c_student_id data = Some sid /\ c_class_id data = Some cid
    /\ c_date data = Some (Text ds) /\ strptime_ymd ds = Some d
    /\ query_get (students db) sid = true /\ query_get (classes db) cid = true
    /\ first (filter_by_triple sid cid d) (attendances db) = None
    /\ commit_failure e = None
    /\ db' = with_attendances db
               (attendances db
                  ++ [mkAttendance (fresh_id (attendances db)) sid cid d
                                   (default_present (c_present data)) (c_notes data)
                                   (current_user e) (utcnow e)])
    /\ resp = JsonRecord 201
                (to_dict (mkAttendance (fresh_id (attendances db)) sid cid d
                                       (default_present (c_present data))
                                       (c_notes data) (current_user e) (utcnow e))).
Proof.
  unfold create_attendance, commit, session_add.
  destruct (c_student_id data) as [sid|];
    [|intros H; injection H as <- <-; discriminate].
  destruct (c_class_id data) as [cid|];
    [|intros H; injection H as <- <-; discriminate].
  destruct (c_date data) as [[ds|v]|];
    [|intros H; injection H as <- <-; discriminate
     |intros H; injection H as <- <-; discriminate].
  destruct (strptime_ymd ds) as [d|] eqn:Hd;
    [|intros H; injection H as <- <-; discriminate].
  destruct (query_get (students db) sid) eqn:Hs; simpl;
    [|intros H; injection H as <- <-; discriminate].
  destruct (query_get (classes db) cid) eqn:Hc; simpl;
    [|intros H; injection H as <- <-; discriminate].
  destruct (first (filter_by_triple sid cid d) (attendances db)) eqn:Hf;
    [intros H; injection H as <- <-; discriminate|].
  destruct (commit_failure e) eqn:Hok;
    [intros H; injection H as <- <-; discriminate|].
  intros H _. injection H as <- <-.
  exists sid, cid, ds, d. repeat split; auto.
Qed.

(** X3: the single create changes the table only when it answers 201: with
    any other answer (400, 404, 500) the table is the one before the
    request. *)
Theorem create_attendance_failure_unchanged e db data db' resp :
  create_attendance e db data = (db', resp) ->
  status_of resp <> 201 ->
  db' = db.
Proof.
  unfold create_attendance, commit.
  split_matches; intros H Hst; injection H as <- <-; try reflexivity.
  now contradiction Hst.
Qed.

(** X4: a single create that is answered 201 adds exactly one record after
    the ones that were there: it has the student, class and date of the
    request, [present] true unless the request says otherwise, the notes of
    the request and the acting user; the triple had no record before and has
    one after, and the answer is that record. *)
Theorem create_attendance_adds_one e db data db' resp :
  create_attendance e db data = (db', resp) ->
  status_of resp = 201 ->
  exists r,
    attendances db' = attendances db ++ [r]
    /\ resp = JsonRecord 201 (to_dict r)
    /\ c_student_id data = Some (student_id r)
    /\ c_class_id data = Some (class_id r)
    /\ (exists ds, c_date data = Some (Text ds)
                   /\ strptime_ymd ds = Some (att_date r))
    /\ present r = match c_present data with Some b => b | None => true end
    /\ notes r = c_notes data
    /\ recorded_by r = current_user e
    /\ count_triple (student_id r) (class_id r) (att_date r) (attendances db) = 0%nat
    /\ count_triple (student_id r) (class_id r) (att_date r) (attendances db') = 1%nat.
Proof.
  intros H Hst.
  destruct (create_attendance_created e db data db' resp H Hst)
    as (sid & cid & ds & d & Hsid & Hcid & Hds & Hd & _ & _ & Hf & _ & -> & ->).
  eexists. split; [reflexivity|]. split; [reflexivity|].
  cbn [student_id class_id att_date present notes recorded_by].
  repeat split; auto.
  - eauto.
  - unfold count_triple. now rewrite (first_absent_filter _ _ Hf).
  - unfold count_triple. cbn [attendances with_attendances].
    rewrite filter_app, (first_absent_filter _ _ Hf). simpl.
    assert (Hh : filter_by_triple sid cid d
                   (mkAttendance (fresh_id (attendances db)) sid cid d
                      (default_present (c_present data)) (c_notes data)
                      (current_user e) (utcnow e)) = true)
      by (apply filter_by_triple_spec; reflexivity).
    now rewrite Hh.
Qed.

(** X5: after a single create that is answered 201, GET /attendances/<id> with
    the id of the answer returns the record of the answer. *)
Theorem create_then_get e db data db' x :
  create_attendance e db data = (db', JsonRecord 201 x) ->
  exists k, d_id x = Some k /\ get_attendance db' k = JsonRecord 200 x.
Proof.
  intros H.
  destruct (create_attendance_created e db data db' _ H eq_refl)
    as (sid & cid & ds & d & _ & _ & _ & _ & _ & _ & _ & _ & -> & Hresp).
  injection Hresp as ->.
  exists (fresh_id (attendances db)). split; [reflexivity|].
  unfold get_attendance. cbn [attendances with_attendances].
  now rewrite first_by_id_appended.
Qed.

(** X6: a single create that is answered 201 cannot be repeated: the same
    request sent again, by whomever and whenever, is answered 400 with the
    duplicate error and changes nothing. *)
Theorem create_twice_rejected e e' db data db' resp :
  create_attendance e db data = (db', resp) ->
  status_of resp = 201 ->
  create_attendance e' db' data
  = (db', JsonError 400
            "Attendance record already exists for this student, class, and date").
Proof.
  intros H Hst.
  destruct (create_attendance_created e db data db' resp H Hst)
    as (sid & cid & ds & d & Hsid & Hcid & Hds & Hd & Hs & Hc & Hf & _ & -> & _).
  unfold create_attendance. rewrite Hsid, Hcid, Hds, Hd.
  cbn [students classes attendances with_attendances]. rewrite Hs, Hc.
  cbn [negb]. rewrite first_append, Hf.
  assert (Hh : filter_by_triple sid cid d
                 (mkAttendance (fresh_id (attendances db)) sid cid d
                    (default_present (c_present data)) (c_notes data)
                    (current_user e) (utcnow e)) = true)
    by (apply filter_by_triple_spec; reflexivity).
  now rewrite Hh.
Qed.

(** X7: deleting the record a single create has just added gives back the
    table from before the create. *)
Theorem create_then_delete e e' db data db' x k :
  create_attendance e db data = (db', JsonRecord 201 x) ->
  d_id x = Some k ->
  commit_failure e' = None ->
  attendances (fst (delete_attendance e' db' k)) = attendances db
  /\ snd (delete_attendance e' db' k) = Plain 204 "".
Proof.
  intros H Hk Hok.
  destruct (create_attendance_created e db data db' _ H eq_refl)
    as (sid & cid & ds & d & _ & _ & _ & _ & _ & _ & _ & _ & -> & Hresp).
  injection Hresp as ->. cbn [d_id to_dict id] in Hk. injection Hk as <-.
  unfold delete_attendance. cbn [attendances with_attendances].
  rewrite first_by_id_appended, Hok by reflexivity.
  cbn [fst snd attendances with_attendances]. split; [|reflexivity].
  apply delete_first_appended; [apply first_by_id_fresh|].
  unfold by_id. cbn [id]. apply Z.eqb_refl.
Qed.

(** X8: for a triple that has no record, the single create and the bulk
    operation with one entry for it store the same table, whether that is the
    old table with one more record or, when a check or the commit fails, the
    old table. *)
Theorem create_agrees_with_bulk e db sid cid ds d p n :
  strptime_ymd ds = Some d ->
  first (filter_by_triple sid cid d) (attendances db) = None ->
  attendances
    (fst (create_attendance e db
            (mkCreate (Some sid) (Some cid) (Some (Text ds)) p n)))
  = attendances
      (fst (create_bulk_attendance e db
              (mkBulk (Some cid) (Some (Text ds))
                      (Some (AArray [EObject (Some sid) p n]))))).
Proof.
  intros Hd Hf.
  unfold create_attendance, create_bulk_attendance, commit.
  cbn [c_student_id c_class_id c_date c_present c_notes
       b_class_id b_date b_attendances].
  rewrite Hd. cbn [iterate bulk_loop]. unfold process_entry, try_entry.
  cbn [entry_student_id entry_present entry_notes session created_records errors].
  destruct (query_get (classes db) cid), (query_get (students db) sid);
    cbn [negb fst attendances]; try reflexivity.
  - rewrite Hf. now destruct (commit_failure e).
  - now destruct (commit_failure e).
Qed.

(** X9: when a required field is missing or the date is a string that does
    not parse, the single create answers 400, and when the student or the
    class does not exist it answers 404 (a bad field or date is reported
    before a missing student, a missing student before a missing class); a
    date that is present and is not a string (null, a number) is answered
    500, not 400, since the [TypeError] of [strptime] is not the
    [ValueError] the handler catches; in each case the table is the one
    before the request. *)
Theorem create_attendance_precondition_failure e db data :
  c_student_id data = None \/ c_class_id data = None \/ c_date data = None
  \/ (exists v, c_date data = Some (NotText v))
  \/ (exists ds, c_date data = Some (Text ds) /\ strptime_ymd ds = None)
  \/ (exists sid, c_student_id data = Some sid /\ query_get (students db) sid = false)
  \/ (exists cid, c_class_id data = Some cid /\ query_get (classes db) cid = false) ->
  fst (create_attendance e db data) = db
  /\ exists status msg,
       snd (create_attendance e db data) = JsonError status msg
       /\ (c_student_id data = None \/ c_class_id data = None \/ c_date data = None
           -> status = 400)
       /\ (forall sid cid,
             c_student_id data = Some sid -> c_class_id data = Some cid ->
             (forall v, c_date data = Some (NotText v) ->
                        status = 500 /\ msg = str_exn (strptime_type_error v))
             /\ (forall ds,
                   c_date data = Some (Text ds) ->
                   (strptime_ymd ds = None -> status = 400 /\ msg = invalid_date_msg)
                   /\ (strptime_ymd ds <> None ->
                       status = 404
                       /\ (query_get (students db) sid = false ->
                           msg = "Student not found")
                       /\ (query_get (students db) sid = true ->
                           msg = "Class not found")))).
Proof.
  intros H. unfold create_attendance.
  destruct (c_student_id data) as [sid|];
    [|split; [reflexivity|]; exists 400, "student_id is required";
      repeat split; intros; discriminate].
  destruct (c_class_id data) as [cid|];
    [|split; [reflexivity|]; exists 400, "class_id is required";
      repeat split; intros; discriminate].
  destruct (c_date data) as [[ds|v]|];
    [| |split; [reflexivity|]; exists 400, "date is required";
        repeat split; intros; discriminate].
  - destruct (strptime_ymd ds) as [d|] eqn:Hd.
    + destruct (query_get (students db) sid) eqn:Hs; cbn [negb].
      * destruct (query_get (classes db) cid) eqn:Hc; cbn [negb].
        -- exfalso.
           destruct H as [H|[H|[H|[(x & H)|[(x & H & H')|[(x & H & H')|(x & H & H')]]]]]];
             try discriminate; injection H as <-; congruence.
        -- split; [reflexivity|]. exists 404, "Class not found".
           split; [reflexivity|]. split; [intros [?|[?|?]]; discriminate|].
           intros sid' cid' Hs' _. injection Hs' as <-.
           split; [intros v Hv; discriminate|].
           intros ds' Hds'. injection Hds' as <-.
           split; [congruence|]. intros _. repeat split; congruence.
      * split; [reflexivity|]. exists 404, "Student not found".
        split; [reflexivity|]. split; [intros [?|[?|?]]; discriminate|].
        intros sid' cid' Hs' _. injection Hs' as <-.
        split; [intros v Hv; discriminate|].
        intros ds' Hds'. injection Hds' as <-.
        split; [congruence|]. intros _. repeat split; congruence.
    + split; [reflexivity|]. exists 400, invalid_date_msg.
      split; [reflexivity|]. split; [reflexivity|].
      intros sid' cid' _ _. split; [intros v Hv; discriminate|].
      intros ds' Hds'. injection Hds' as <-. split; [auto|congruence].
  - split; [reflexivity|]. exists 500, (str_exn (strptime_type_error v)).
    split; [reflexivity|]. split; [intros [?|[?|?]]; discriminate|].
    intros sid' cid' _ _. split.
    + intros v' Hv'. injection Hv' as <-. auto.
    + intros ds' Hds'. discriminate.
Qed.

(** *** Updating and deleting one record *)

Lemma update_attendance_done e db k data db' resp :
  update_attendance e db k data = (db', resp) ->
  status_of resp = 200 ->
  exists old,
    first (by_id k) (attendances db) = Some old
    /\ commit_failure e = None
    /\ db' = with_attendances db
               (update_first (by_id k) (apply_update e data) (attendances db))
    /\ resp = JsonRecord 200 (to_dict (apply_update e data old)).
Proof.
  unfold update_attendance, commit.
  destruct (first (by_id k) (attendances db)) as [old|];
    [|intros H; injection H as <- <-; discriminate].
  destruct (commit_failure e);
    [intros H; injection H as <- <-; discriminate|].
  intros H _. injection H as <- <-. exists old. auto.
Qed.

(** X10: an update never adds, removes or reorders records and never touches
    a record with another id: the ids of the table are the same after it, in
    the same order, and the records whose id is not the one in the URL are
    the same, whatever the body and the outcome. *)
Theorem update_attendance_frame e db k data :
  map id (attendances (fst (update_attendance e db k data)))
  = map id (attendances db)
  /\ filter (fun a => negb (by_id k a))
            (attendances (fst (update_attendance e db k data)))
     = filter (fun a => negb (by_id k a)) (attendances db).
Proof.
  unfold update_attendance, commit.
  destruct (first (by_id k) (attendances db)); [|split; reflexivity].
  destruct (commit_failure e); [split; reflexivity|].
  cbn [fst attendances with_attendances]. split.
  - apply map_update_first. apply apply_update_id.
  - apply filter_update_first_other.
    + intros r Hr. now rewrite Hr.
    + intros r. now rewrite apply_update_by_id.
Qed.

(** X11: sending again an update that was answered 200 changes nothing but
    [recorded_by] and [recorded_at]; sent again by the same user at the same
    time it changes nothing at all. *)
Theorem update_attendance_again e e' db k data db' resp :
  update_attendance e db k data = (db', resp) ->
  status_of resp = 200 ->
  map unstamped (attendances (fst (update_attendance e' db' k data)))
  = map unstamped (attendances db')
  /\ attendances (fst (update_attendance e db' k data)) = attendances db'.
Proof.
  intros H Hst.
  destruct (update_attendance_done e db k data db' resp H Hst)
    as (old & Hold & Hok & -> & _).
  assert (Hkeep : forall env1 r, by_id k (apply_update env1 data r) = by_id k r)
    by (intros; apply apply_update_by_id).
  split.
  - unfold update_attendance, commit. cbn [attendances with_attendances].
    rewrite first_update_same, Hold by apply Hkeep. cbn [option_map].
    destruct (commit_failure e'); [reflexivity|].
    cbn [fst attendances with_attendances].
    rewrite update_first_twice by apply Hkeep.
    apply map_update_first_ext. intros r. unfold apply_update.
    now destruct (u_present data), (u_notes data).
  - unfold update_attendance, commit. cbn [attendances with_attendances].
    rewrite first_update_same, Hold, Hok by apply Hkeep.
    cbn [option_map fst attendances with_attendances].
    rewrite update_first_twice by apply Hkeep.
    apply update_first_ext. intros r. unfold apply_update.
    now destruct (u_present data), (u_notes data).
Qed.

(** X12: after an update that was answered 200, GET /attendances/<id> for the
    same id returns the record of that answer. *)
Theorem update_then_get e db k data db' x :
  update_attendance e db k data = (db', JsonRecord 200 x) ->
  get_attendance db' k = JsonRecord 200 x.
Proof.
  intros H.
  destruct (update_attendance_done e db k data db' _ H eq_refl)
    as (old & Hold & _ & -> & Hresp).
  injection Hresp as ->.
  unfold get_attendance. cbn [attendances with_attendances].
  rewrite first_update_same, Hold by (intros; apply apply_update_by_id).
  reflexivity.
Qed.

(** X13: in the record an update answers with, [present] is the value of the
    body when the body has the key and the stored value otherwise, and
    [notes] likewise, where a null in the body clears the notes; the id is
    the one of the URL. *)
Theorem update_attendance_fields e db k data db' x :
  update_attendance e db k data = (db', JsonRecord 200 x) ->
  exists old,
    first (by_id k) (attendances db) = Some old
    /\ d_id x = Some k
    /\ d_present x = match u_present data with Some b => b | None => present old end
    /\ d_notes x = match u_notes data with Some n => n | None => notes old end
    /\ (d_student_id x, d_class_id x, d_date x) = triple_of old.
Proof.
  intros H.
  destruct (update_attendance_done e db k data db' _ H eq_refl)
    as (old & Hold & _ & _ & Hresp).
  injection Hresp as ->. exists old. split; [assumption|].
  pose proof (first_some_holds _ _ _ Hold) as Hid. apply by_id_eq in Hid.
  unfold apply_update, triple_of.
  destruct (u_present data), (u_notes data); cbn; rewrite Hid; auto.
Qed.

Lemma delete_attendance_done e db k db' resp :
  delete_attendance e db k = (db', resp) ->
  http_status resp = 204 ->
  exists r,
    first (by_id k) (attendances db) = Some r
    /\ commit_failure e = None
    /\ db' = with_attendances db (delete_first (by_id k) (attendances db))
    /\ resp = Plain 204 "".
Proof.
  unfold delete_attendance.
  destruct (first (by_id k) (attendances db)) as [r|];
    [|intros H; injection H as <- <-; discriminate].
  destruct (commit_failure e);
    [intros H; injection H as <- <-; discriminate|].
  intros H _. injection H as <- <-. exists r. auto.
Qed.

(** X14: a delete that is answered 204 removes exactly one record, one with
    the id of the URL: the table is one record shorter, the records with
    another id are all there in their order, and the number of records of
    every triple is what it was, less one for the triple of the removed
    record. *)
Theorem delete_attendance_removes_one e db k db' resp :
  delete_attendance e db k = (db', resp) ->
  http_status resp = 204 ->
  exists r,
    first (by_id k) (attendances db) = Some r
    /\ id r = k
    /\ S (List.length (attendances db')) = List.length (attendances db)
    /\ filter (fun a => negb (by_id k a)) (attendances db')
       = filter (fun a => negb (by_id k a)) (attendances db)
    /\ forall sid cid d,
         (count_triple sid cid d (attendances db')
          + if filter_by_triple sid cid d r then 1 else 0)%nat
         = count_triple sid cid d (attendances db).
Proof.
  intros H Hst.
  destruct (delete_attendance_done e db k db' resp H Hst) as (r & Hr & _ & -> & _).
  exists r. cbn [attendances with_attendances].
  split; [assumption|].
  split; [apply by_id_eq; now apply first_some_holds in Hr|].
  split; [now apply delete_first_length with (r := r)|].
  split.
  - apply delete_first_filter_other. intros a Ha. now rewrite Ha.
  - intros sid cid d. unfold count_triple. now apply delete_first_filter_length.
Qed.

(** X15: a delete changes the table only when it answers 204; its only other
    answer is 500, for an id that no record has or a commit that fails, and
    then the table is the one before the request. *)
Theorem delete_attendance_failure_unchanged e db k db' resp :
  delete_attendance e db k = (db', resp) ->
  http_status resp <> 204 ->
  db' = db /\ http_status resp = 500.
Proof.
  unfold delete_attendance.
  destruct (first (by_id k) (attendances db));
    [|intros H _; injection H as <- <-; split; reflexivity].
  destruct (commit_failure e); intros H Hst; injection H as <- <-.
  - split; reflexivity.
  - now contradiction Hst.
Qed.

(** X16: when ids are unique, a record that was deleted is gone: after a
    delete answered 204, GET for the same id and a second DELETE of it are
    answered 500, and the second DELETE changes nothing. *)
Theorem delete_then_absent e e' db k db' resp :
  NoDup (map id (attendances db)) ->
  delete_attendance e db k = (db', resp) ->
  http_status resp = 204 ->
  get_attendance db' k = JsonError 500 not_found_msg
  /\ delete_attendance e' db' k = (db', Json (JsonError 500 not_found_msg)).
Proof.
  intros Hnd H Hst.
  destruct (delete_attendance_done e db k db' resp H Hst) as (r & _ & _ & -> & _).
  unfold get_attendance, delete_attendance. cbn [attendances with_attendances].
  now rewrite (delete_first_by_id_gone k _ Hnd).
Qed.

(** X17: for an id that no record has, GET, PUT and DELETE on
    /attendances/<id> are all answered 500 with the text of the NotFound
    that [get_or_404] raised, not 404, and PUT and DELETE leave the table as
    it was. *)
Theorem missing_id_is_500 e db k data :
  (forall r, In r (attendances db) -> id r <> k) ->
  get_attendance db k = JsonError 500 not_found_msg
  /\ update_attendance e db k data = (db, JsonError 500 not_found_msg)
  /\ delete_attendance e db k = (db, Json (JsonError 500 not_found_msg)).
Proof.
  intros Hno. unfold get_attendance, update_attendance, delete_attendance.
  now rewrite (first_absent_by_id k _ Hno).
Qed.

Lemma delete_attendance_unique e db k :
  unique_triples (attendances db) ->
  unique_triples (attendances (fst (delete_attendance e db k))).
Proof.
  intros Hu. unfold delete_attendance.
  destruct (first (by_id k) (attendances db)); [|assumption].
  destruct (commit_failure e); [assumption|].
  cbn [fst attendances with_attendances]. intros s c dd.
  specialize (Hu s c dd). unfold count_triple in *.
  pose proof (delete_first_filter_le (by_id k) (filter_by_triple s c dd)
                                     (attendances db)).
  lia.
Qed.

(** X18: the single create, the update and the delete keep the uniqueness of
    (student, class, date): if no triple has more than one record before one
    of them, none has after it, whatever the request and its outcome. *)
Theorem single_writes_keep_triples_unique e db :
  unique_triples (attendances db) ->
  (forall data, unique_triples (attendances (fst (create_attendance e db data))))
  /\ (forall k data, unique_triples (attendances (fst (update_attendance e db k data))))
  /\ (forall k, unique_triples (attendances (fst (delete_attendance e db k)))).
Proof.
  intros Hu. split; [|split].
  - intros data. now apply create_attendance_unique.
  - intros k data. now apply update_attendance_unique.
  - intros k. now apply delete_attendance_unique.
Qed.

(** X19: deleting the record of a triple frees the triple: when triples are
    unique, after a delete answered 204 a single create for the student,
    class and date of the removed record is answered 201, provided student
    and class exist and the commit succeeds. *)
Theorem delete_then_create e e' db k db' resp r ds p n :
  unique_triples (attendances db) ->
  delete_attendance e db k = (db', resp) ->
  http_status resp = 204 ->
  first (by_id k) (attendances db) = Some r ->
  strptime_ymd ds = Some (att_date r) ->
  query_get (students db) (student_id r) = true ->
  query_get (classes db) (class_id r) = true ->
  commit_failure e' = None ->
  status_of (snd (create_attendance e' db'
                    (mkCreate (Some (student_id r)) (Some (class_id r))
                              (Some (Text ds)) p n)))
  = 201.
Proof.
  intros Hu H Hst Hr Hd Hs Hc Hok.
  destruct (delete_attendance_done e db k db' resp H Hst) as (r' & Hr' & _ & -> & _).
  rewrite Hr in Hr'. injection Hr' as <-.
  assert (Hnone : first (filter_by_triple (student_id r) (class_id r) (att_date r))
                        (delete_first (by_id k) (attendances db)) = None).
  { destruct (first _ (delete_first (by_id k) (attendances db))) as [x|] eqn:Hx;
      [|reflexivity].
    exfalso. apply first_some_counted in Hx.
    pose proof (delete_first_filter_length (by_id k)
                  (filter_by_triple (student_id r) (class_id r) (att_date r))
                  (attendances db) r Hr) as Hcount.
    rewrite (proj2 (filter_by_triple_spec _ _ _ r) eq_refl) in Hcount.
    specialize (Hu (student_id r) (class_id r) (att_date r)).
    unfold count_triple in Hu. lia. }
  unfold create_attendance, commit.
  cbn [c_student_id c_class_id c_date c_present c_notes
       students classes attendances with_attendances].
  now rewrite Hd, Hs, Hc, Hnone, Hok.
Qed.

(** *** More on the bulk operation *)

Lemma process_entry_object_lists e db cid d st a :
  is_object a = true ->
  exists st',
    process_entry e db cid d st a = inr st'
    /\ errors st' = errors st ++ entry_message db a
    /\ map dict_fields (created_records st')
       = map dict_fields (created_records st) ++ entry_fields e db cid d a.
Proof.
  destruct a as [[sid|] p n|v]; [| |discriminate]; intros _.
  - unfold process_entry, try_entry, entry_message, entry_fields.
    cbn [entry_student_id entry_present entry_notes].
    destruct (query_get (students db) sid); cbn [negb].
    + destruct (first (filter_by_triple sid cid d) (session st)) as [r|] eqn:Hf;
        eexists; (split; [reflexivity|]);
        cbn [errors created_records]; rewrite app_nil_r, map_app;
        (split; [reflexivity|]); [|reflexivity].
      apply first_some_holds, filter_by_triple_spec in Hf.
      unfold triple_of in Hf. injection Hf as <- <- <-. reflexivity.
    + eexists. split; [reflexivity|]. cbn [errors created_records].
      now rewrite app_nil_r.
  - eexists. split; [reflexivity|]. cbn [errors created_records entry_fields].
    cbn. now rewrite app_nil_r.
Qed.

Lemma bulk_loop_lists e db cid d entries : forall st,
  forallb is_object entries = true ->
  exists st',
    bulk_loop e db cid d entries st = inr st'
    /\ errors st' = errors st ++ flat_map (entry_message db) entries
    /\ map dict_fields (created_records st')
       = map dict_fields (created_records st)
         ++ flat_map (entry_fields e db cid d) entries.
Proof.
  induction entries as [|a entries IH]; intros st Hobj; simpl in *.
  - exists st. now rewrite !app_nil_r.
  - apply andb_true_iff in Hobj as [Ha Hrest].
    destruct (process_entry_object_lists e db cid d st a Ha) as (st1 & -> & He & Hc).
    destruct (IH st1 Hrest) as (st' & Hl & He' & Hc').
    exists st'. rewrite Hl, He', Hc', He, Hc, <- !app_assoc. auto.
Qed.





(** X20: in the answer of a bulk request that went through, [errors] holds, in
    the order of the entries, "Student <id> not found" for each entry whose
    student does not exist and "Error processing student unknown:
    'student_id'" for each entry without [student_id], and nothing else. *)
Theorem bulk_error_messages e db data db' status msg created errs :
  create_bulk_attendance e db data = (db', JsonBulk status msg created errs) ->
  exists cid d entries,
    preconditions db data = Some (cid, d, entries)
    /\ errs = flat_map (entry_message db) entries.
Proof.
  intros H.
  assert (Hst : status = 201).
  { revert H. unfold create_bulk_attendance, commit.
    split_matches; intros H; try discriminate; now injection H. }
  subst status.
  destruct (bulk_created strptime_ymd e db data db' _ H eq_refl)
    as (cid & d & entries & st & Hpre & Hobj & _ & Hloop & _ & _ & Hresp).
  injection Hresp as -> -> ->.
  destruct (bulk_loop_lists e db cid d entries (mkLoop (attendances db) [] []) Hobj)
    as (st2 & Hl2 & He & _).
  rewrite Hloop in Hl2. injection Hl2 as <-.
  exists cid, d, entries. split; [assumption|exact He].
Qed.



Lemma elsewhere_not_hit sid cid d r :
  filter_by_triple sid cid d r = true -> elsewhere cid d r = false.
Proof.
  unfold filter_by_triple, elsewhere. intros H.
  apply andb_true_iff in H as [H Hd]. apply andb_true_iff in H as [_ Hc].
  now rewrite Hc, Hd.
Qed.

(** What the session holds after an iteration, against what it held. *)
Lemma entry_effect_extends e db cid d rows a :
  filter (elsewhere cid d) (entry_effect e db cid d rows a)
  = filter (elsewhere cid d) rows
  /\ exists added,
       map id (entry_effect e db cid d rows a) = map id rows ++ map id added
       /\ map triple_of (entry_effect e db cid d rows a)
          = map triple_of rows ++ map triple_of added
       /\ Forall (fun r => class_id r = cid /\ att_date r = d) added
       /\ (List.length added <= if resolvable db a then 1 else 0)%nat.
Proof.
  destruct (effect_cases e db cid d rows a)
    as [[Hn ->]|[(sid & r & Hr & Hf & ->)|(sid & Hr & Hf & ->)]].
  - split; [reflexivity|]. exists []. rewrite !app_nil_r.
    repeat split; auto. simpl. lia.
  - split.
    + apply filter_update_first_other; [|reflexivity].
      intros x. apply elsewhere_not_hit.
    + exists []. rewrite !app_nil_r.
      rewrite !map_update_first by reflexivity.
      repeat split; auto. simpl. lia.
  - split.
    + rewrite filter_app. cbn [filter].
      rewrite (elsewhere_not_hit sid cid d); [apply app_nil_r|].
      apply filter_by_triple_spec. reflexivity.
    + eexists [_]. rewrite !map_app.
      split; [reflexivity|]. split; [reflexivity|]. split.
      * constructor; [split; reflexivity|constructor].
      * rewrite (resolvable_as_resolvable db sid a Hr). simpl. lia.
Qed.

Lemma fold_effect_extends e db cid d entries : forall rows,
  filter (elsewhere cid d) (fold_left (entry_effect e db cid d) entries rows)
  = filter (elsewhere cid d) rows
  /\ exists added,
       map id (fold_left (entry_effect e db cid d) entries rows)
       = map id rows ++ map id added
       /\ map triple_of (fold_left (entry_effect e db cid d) entries rows)
          = map triple_of rows ++ map triple_of added
       /\ Forall (fun r => class_id r = cid /\ att_date r = d) added
       /\ (List.length added <= List.length (filter (resolvable db) entries))%nat.
Proof.
  induction entries as [|a entries IH]; intros rows; cbn [fold_left].
  - split; [reflexivity|]. exists []. rewrite !app_nil_r.
    repeat split; auto.
  - destruct (entry_effect_extends e db cid d rows a)
      as (Hel1 & added1 & Hid1 & Htr1 & Hall1 & Hlen1).
    destruct (IH (entry_effect e db cid d rows a))
      as (Hel2 & added2 & Hid2 & Htr2 & Hall2 & Hlen2).
    split; [congruence|].
    exists (added1 ++ added2).
    rewrite Hid2, Htr2, Hid1, Htr1, !map_app, <- !app_assoc.
    repeat split; auto.
    + apply Forall_app. auto.
    + rewrite length_app. cbn [filter].
      destruct (resolvable db a); simpl in *; lia.
Qed.

(** X22: a bulk request never removes or reorders records and never touches
    the records of another class or another day: the table after it has the
    ids and the triples of the table before it, in the same order, followed
    by those of the records it added, which are all for the class and the
    date of the request and at most one per entry whose student exists. *)
Theorem bulk_frame e db data cid d entries :
  preconditions db data = Some (cid, d, entries) ->
  filter (elsewhere cid d) (attendances (fst (create_bulk_attendance e db data)))
  = filter (elsewhere cid d) (attendances db)
  /\ exists added,
       map id (attendances (fst (create_bulk_attendance e db data)))
       = map id (attendances db) ++ map id added
       /\ map triple_of (attendances (fst (create_bulk_attendance e db data)))
          = map triple_of (attendances db) ++ map triple_of added
       /\ Forall (fun r => class_id r = cid /\ att_date r = d) added
       /\ (List.length added <= List.length (filter (resolvable db) entries))%nat.
Proof.
  intros Hpre. rewrite (preconditions_pass strptime_ymd e db data _ _ _ Hpre).
  assert (Hsame : filter (elsewhere cid d) (attendances db)
                  = filter (elsewhere cid d) (attendances db)
                  /\ exists added,
                       map id (attendances db) = map id (attendances db) ++ map id added
                       /\ map triple_of (attendances db)
                          = map triple_of (attendances db) ++ map triple_of added
                       /\ Forall (fun r => class_id r = cid /\ att_date r = d) added
                       /\ (List.length added
                           <= List.length (filter (resolvable db) entries))%nat).
  { split; [reflexivity|]. exists []. rewrite !app_nil_r.
    repeat split; auto. simpl. lia. }
  destruct (bulk_loop e db cid d entries (mkLoop (attendances db) [] []))
    as [ex|st] eqn:Hloop; [exact Hsame|].
  unfold commit. destruct (commit_failure e); [exact Hsame|].
  cbn [fst attendances with_attendances].
  pose proof (bulk_loop_completes _ _ _ _ _ _ _ Hloop) as Hobj.
  destruct (bulk_loop_objects e db cid d entries (mkLoop (attendances db) [] []) Hobj)
    as (st2 & Hl2 & Hs2 & _).
  rewrite Hloop in Hl2. injection Hl2 as <-. cbn [session] in Hs2. rewrite Hs2.
  apply fold_effect_extends.
Qed.

(** X23: after a bulk request that is answered 201, every student that exists
    and that an entry names has a record for the class and the date of the
    request, created if there was none, with [present] and [notes] as the
    last entry for that student gives them and the stamp of the request. *)
Theorem bulk_records_every_student e db data db' resp cid d entries a sid :
  create_bulk_attendance e db data = (db', resp) ->
  status_of resp = 201 ->
  preconditions db data = Some (cid, d, entries) ->
  In a entries ->
  resolvable_as db sid a = true ->
  exists r p n,
    first (filter_by_triple sid cid d) (attendances db') = Some r
    /\ last_data db entries sid = Some (p, n)
    /\ present r = p /\ notes r = n
    /\ recorded_by r = current_user e /\ recorded_at r = utcnow e
    /\ (1 <= count_triple sid cid d (attendances db'))%nat.
Proof.
  intros H Hst Hpre Hin Ha.
  destruct (bulk_created strptime_ymd e db data db' resp H Hst)
    as (cid' & d' & entries' & st & Hpre' & _ & _ & _ & Hs & -> & _).
  rewrite Hpre in Hpre'. injection Hpre' as <- <- <-.
  cbn [attendances with_attendances]. rewrite Hs.
  destruct (last_data db entries sid) as [[p n]|] eqn:Hl;
    [|now destruct (last_data_in db entries a sid Hin Ha)].
  destruct (fold_effect_first_last e db cid d entries (attendances db) sid p n Hl)
    as (r & Hr & Hp & Hn & Hby & Hat).
  exists r, p, n. repeat split; try assumption.
  unfold count_triple. now apply first_some_counted in Hr.
Qed.

Lemma fold_effect_unresolvable e db cid d entries : forall rows,
  forallb (fun a => negb (resolvable db a)) entries = true ->
  fold_left (entry_effect e db cid d) entries rows = rows.
Proof.
  induction entries as [|a entries IH]; intros rows Hall; [reflexivity|].
  simpl in Hall. apply andb_true_iff in Hall as [Ha Hrest].
  cbn [fold_left]. rewrite <- (IH rows Hrest) at 2. f_equal.
  apply negb_true_iff in Ha. unfold entry_effect. unfold resolvable in Ha.
  destruct (entry_student_id a); [reflexivity|]. now rewrite Ha.
Qed.

Lemma flat_map_entry_fields_nil e db cid d entries :
  forallb (fun a => negb (resolvable db a)) entries = true ->
  flat_map (entry_fields e db cid d) entries = [].
Proof.
  induction entries as [|a entries IH]; intros Hall; [reflexivity|].
  simpl in Hall. apply andb_true_iff in Hall as [Ha Hrest].
  cbn [flat_map]. rewrite (IH Hrest), app_nil_r.
  apply negb_true_iff in Ha. unfold entry_fields. unfold resolvable in Ha.
  destruct (entry_student_id a); [reflexivity|]. now rewrite Ha.
Qed.

(** X24: a batch of objects none of which names a student that exists, the
    empty batch among them, stores nothing: the records are the ones before
    the request, and the answer, when the commit succeeds, is a 201 that says
    "Processed 0 attendance records", with no record and one message per
    entry. *)
Theorem bulk_nothing_to_store e db data cid d entries :
  preconditions db data = Some (cid, d, entries) ->
  forallb is_object entries = true ->
  forallb (fun a => negb (resolvable db a)) entries = true ->
  attendances (fst (create_bulk_attendance e db data)) = attendances db
  /\ match commit_failure e with
     | None =>
         snd (create_bulk_attendance e db data)
         = JsonBulk 201 "Processed 0 attendance records" []
                    (flat_map (entry_message db) entries)
         /\ List.length (flat_map (entry_message db) entries) = List.length entries
     | Some ex =>
         snd (create_bulk_attendance e db data) = JsonError 500 (str_exn ex)
     end.
Proof.
  intros Hpre Hobj Hnone.
  rewrite (preconditions_pass strptime_ymd e db data _ _ _ Hpre).
  destruct (bulk_loop_objects e db cid d entries (mkLoop (attendances db) [] []) Hobj)
    as (st & Hloop & Hs & _ & Hlen).
  destruct (bulk_loop_lists e db cid d entries (mkLoop (attendances db) [] []) Hobj)
    as (st2 & Hl2 & He & Hc).
  rewrite Hloop in Hl2. injection Hl2 as <-. rewrite Hloop.
  cbn [session created_records errors map app] in *.
  rewrite fold_effect_unresolvable in Hs by assumption.
  rewrite flat_map_entry_fields_nil in Hc by assumption.
  apply map_eq_nil in Hc.
  unfold commit. destruct (commit_failure e).
  - split; reflexivity.
  - cbn [fst snd attendances with_attendances]. rewrite Hs, Hc, He.
    split; [reflexivity|]. split; [reflexivity|].
    rewrite <- He, Hlen. clear -Hnone.
    induction entries as [|a entries IH]; [reflexivity|].
    simpl in *. apply andb_true_iff in Hnone as [-> Hrest]. simpl.
    now rewrite IH.
Qed.

(** X25: the bulk operation changes the table only when it answers 201: with
    any other answer (400, 404, 500) the table is the one before the
    request. *)
Theorem bulk_failure_unchanged e db data db' resp :
  create_bulk_attendance e db data = (db', resp) ->
  status_of resp <> 201 ->
  db' = db.
Proof.
  unfold create_bulk_attendance, commit.
  split_matches; intros H Hst; injection H as <- <-; try reflexivity.
  now contradiction Hst.
Qed.

(** X26: what a bulk request stored can be listed: when triples are unique,
    after a 201 the list operation asked for the student of an entry whose
    student exists, the class and the date of the request returns exactly
    one record, with [present] and [notes] as the last entry for that student
    gives them; the student id and the class id must not be 0 and the date
    string not empty, since the list operation ignores such parameters. *)
Theorem bulk_then_list e db data db' resp cid ds d entries a sid :
  unique_triples (attendances db) ->
  create_bulk_attendance e db data = (db', resp) ->
  status_of resp = 201 ->
  b_class_id data = Some cid ->
  b_date data = Some (Text ds) ->
  b_attendances data = Some (AArray entries) ->
  strptime_ymd ds = Some d ->
  In a entries ->
  resolvable_as db sid a = true ->
  sid <> 0 -> cid <> 0 -> ds <> "" ->
  exists r p n,
    get_attendances db' (mkArgs (Some sid) (Some cid) (Some ds))
    = JsonList 200 [to_dict r]
    /\ triple_of r = (sid, cid, d)
    /\ last_data db entries sid = Some (p, n)
    /\ present r = p /\ notes r = n.
Proof.
  intros Hu H Hst Hcid Hds Hes Hd Hin Ha Hsid0 Hcid0 Hds0.
  destruct (bulk_created strptime_ymd e db data db' resp H Hst)
    as (cid' & d' & entries' & st & Hpre & _ & _ & _ & Hs & -> & _).
  unfold preconditions in Hpre. rewrite Hcid, Hds, Hes, Hd in Hpre.
  cbn [iterate] in Hpre.
  destruct (query_get (classes db) cid); [|discriminate].
  injection Hpre as <- <- <-.
  destruct (last_data db entries sid) as [[p n]|] eqn:Hl;
    [|now destruct (last_data_in db entries a sid Hin Ha)].
  destruct (fold_effect_first_last e db cid d entries (attendances db) sid p n Hl)
    as (r & Hr & Hp & Hn & _).
  pose proof (fold_effect_unique e db cid d entries (attendances db) Hu sid cid d)
    as Hone.
  exists r, p, n.
  split; [|split; [apply filter_by_triple_spec; now apply first_some_holds in Hr|auto]].
  unfold get_attendances, opt_filter, truthy_int, truthy_str.
  cbn [q_student_id q_class_id q_date attendances with_attendances].
  apply Z.eqb_neq in Hsid0, Hcid0. rewrite Hsid0, Hcid0.
  apply String.eqb_neq in Hds0. rewrite Hds0, Hd, Hs.
  rewrite !filter_filter_and.
  change [to_dict r] with (map to_dict [r]).
  rewrite <- (first_single _ _ _ Hr Hone). do 2 f_equal.
  apply filter_ext. intros x. unfold filter_by_triple. now rewrite andb_assoc.
Qed.

End Coverage.

(** ** The statements of this part on the sample data *)

Lemma get_attendance_agrees_with_list_sample :
  exists body,
    get_attendances strptime_iso db_two (mkArgs None None None) = JsonList 200 body
    /\ In (to_dict row2) body.
Proof.
  destruct (get_attendance_agrees_with_list strptime_iso db_two) as [Hget _].
  destruct (Hget 2 (to_dict row2) eq_refl) as [_ Hbody]. exact Hbody.
Defined.

Lemma create_attendance_failure_unchanged_sample :
  fst (create_attendance strptime_iso env_ok db_one create_again) = db_one.
Proof.
  eapply (create_attendance_failure_unchanged strptime_iso env_ok db_one create_again).
  - reflexivity.
  - discriminate.
Defined.

Lemma create_attendance_adds_one_sample :
  exists r,
    attendances (fst (create_attendance strptime_iso env_ok db_one create_two))
    = [row1; r]
    /\ present r = true /\ notes r = Some "on time".
Proof.
  destruct (create_attendance_adds_one strptime_iso env_ok db_one create_two _ _
              eq_refl eq_refl) as (r & Hrows & _ & _ & _ & _ & Hp & Hn & _).
  exists r. split; [exact Hrows|]. split; [exact Hp|exact Hn].
Defined.

Lemma create_then_get_sample :
  exists x k,
    snd (create_attendance strptime_iso env_ok db_one create_two) = JsonRecord 201 x
    /\ d_id x = Some k
    /\ get_attendance (fst (create_attendance strptime_iso env_ok db_one create_two)) k
       = JsonRecord 200 x.
Proof.
  eexists. 
  destruct (create_then_get strptime_iso env_ok db_one create_two _ _ eq_refl)
    as (k & Hk & Hget).
  exists k. split; [reflexivity|]. split; [exact Hk|exact Hget].
Defined.

Lemma create_twice_rejected_sample :
  status_of
    (snd (create_attendance strptime_iso env_later
            (fst (create_attendance strptime_iso env_ok db_one create_two)) create_two))
  = 400.
Proof.
  rewrite (create_twice_rejected strptime_iso env_ok env_later db_one create_two
             (fst (create_attendance strptime_iso env_ok db_one create_two))
             (snd (create_attendance strptime_iso env_ok db_one create_two))
             eq_refl eq_refl).
  reflexivity.
Defined.

Lemma create_then_delete_sample :
  attendances
    (fst (delete_attendance env_later
            (fst (create_attendance strptime_iso env_ok db_one create_two)) 2))
  = [row1].
Proof.
  destruct (create_then_delete strptime_iso env_ok env_later db_one create_two _ _ 2
              eq_refl eq_refl eq_refl) as [Hrows _].
  exact Hrows.
Defined.

Lemma create_agrees_with_bulk_sample :
  attendances
    (fst (create_attendance strptime_iso env_ok db_one
            (mkCreate (Some 2) (Some 5) (Some (Text "2024-03-01")) None
                      (Some "on time"))))
  = attendances
      (fst (create_bulk_attendance strptime_iso env_ok db_one
              (mkBulk (Some 5) (Some (Text "2024-03-01"))
                      (Some (AArray [EObject (Some 2) None (Some "on time")]))))).
Proof.
  apply (create_agrees_with_bulk strptime_iso env_ok db_one 2 5 "2024-03-01" day1);
    reflexivity.
Defined.

Lemma create_attendance_precondition_failure_sample :
  fst (create_attendance strptime_iso env_ok db_one create_number_date) = db_one
  /\ snd (create_attendance strptime_iso env_ok db_one create_number_date)
     = JsonError 500 "strptime() argument 1 must be str, not int".
Proof.
  destruct (create_attendance_precondition_failure strptime_iso env_ok db_one
              create_number_date) as (Hdb & status & msg & Hresp & _ & Hcases).
  - right. right. right. left. exists (TNumber 20240301). reflexivity.
  - split; [exact Hdb|].
    destruct (Hcases 2 5 eq_refl eq_refl) as [Hnot _].
    destruct (Hnot (TNumber 20240301) eq_refl) as [-> ->]. exact Hresp.
Defined.

Lemma update_attendance_again_sample :
  attendances
    (fst (update_attendance env_other
            (fst (update_attendance env_other db_one 1 update_clear)) 1 update_clear))
  = [mkAttendance 1 1 5 day1 false None 43 3000].
Proof.
  destruct (update_attendance_again env_other env_later db_one 1 update_clear
              (fst (update_attendance env_other db_one 1 update_clear))
              (snd (update_attendance env_other db_one 1 update_clear))
              eq_refl eq_refl) as [_ Hsame].
  rewrite Hsame. reflexivity.
Defined.

Lemma update_then_get_sample :
  get_attendance (fst (update_attendance env_other db_one 1 update_clear)) 1
  = JsonRecord 200 (to_dict (mkAttendance 1 1 5 day1 false None 43 3000)).
Proof.
  exact (update_then_get env_other db_one 1 update_clear _ _ eq_refl).
Defined.

Lemma update_attendance_fields_sample :
  exists x,
    snd (update_attendance env_other db_one 1 (mkUpdate None (Some None)))
    = JsonRecord 200 x
    /\ d_present x = true /\ d_notes x = None.
Proof.
  eexists. split; [reflexivity|].
  destruct (update_attendance_fields env_other db_one 1 (mkUpdate None (Some None))
              _ _ eq_refl) as (old & Hold & _ & Hp & Hn & _).
  injection Hold as <-. split; [exact Hp|exact Hn].
Defined.

Lemma delete_attendance_removes_one_sample :
  attendances (fst (delete_attendance env_ok db_two 1)) = [row2]
  /\ S (List.length (attendances (fst (delete_attendance env_ok db_two 1)))) = 2%nat.
Proof.
  destruct (delete_attendance_removes_one env_ok db_two 1 _ _ eq_refl eq_refl)
    as (r & _ & _ & Hlen & _).
  split; [reflexivity|exact Hlen].
Defined.

Lemma delete_attendance_failure_unchanged_sample :
  fst (delete_attendance env_fail db_two 1) = db_two
  /\ http_status (snd (delete_attendance env_fail db_two 1)) = 500.
Proof.
  apply (delete_attendance_failure_unchanged env_fail db_two 1).
  - reflexivity.
  - discriminate.
Defined.

Lemma delete_then_absent_sample :
  get_attendance (fst (delete_attendance env_ok db_two 1)) 1
  = JsonError 500 not_found_msg.
Proof.
  assert (Hnd : NoDup (map id (attendances db_two))).
  { simpl. repeat constructor; simpl; intuition discriminate. }
  destruct (delete_then_absent env_ok env_later db_two 1 _ _ Hnd eq_refl eq_refl)
    as [Hget _].
  exact Hget.
Defined.

Lemma missing_id_is_500_sample :
  update_attendance env_ok db_two 7 update_clear
  = (db_two, JsonError 500 not_found_msg).
Proof.
  destruct (missing_id_is_500 env_ok db_two 7 update_clear) as (_ & Hput & _).
  - intros r [<-|[<-|[]]]; discriminate.
  - exact Hput.
Defined.

Lemma single_writes_keep_triples_unique_sample :
  unique_triples (attendances (fst (delete_attendance env_ok db_one 1)))
  /\ unique_triples
       (attendances (fst (create_attendance strptime_iso env_ok db_one create_two))).
Proof.
  assert (Hu : unique_triples (attendances db_one)).
  { intros s c dd. unfold count_triple. simpl.
    destruct (filter_by_triple s c dd row1); simpl; lia. }
  destruct (single_writes_keep_triples_unique strptime_iso env_ok db_one Hu)
    as (Hcreate & _ & Hdelete).
  split; [apply Hdelete|apply Hcreate].
Defined.

Lemma delete_then_create_sample :
  status_of
    (snd (create_attendance strptime_iso env_later
            (fst (delete_attendance env_ok db_one 1)) create_again))
  = 201.
Proof.
  assert (Hu : unique_triples (attendances db_one)).
  { intros s c dd. unfold count_triple. simpl.
    destruct (filter_by_triple s c dd row1); simpl; lia. }
  exact (delete_then_create strptime_iso env_ok env_later db_one 1 _ _ row1
           "2024-03-01" (Some false) None Hu eq_refl eq_refl eq_refl eq_refl
           eq_refl eq_refl eq_refl).
Defined.

Lemma bulk_error_messages_sample :
  exists created errs,
    snd (create_bulk_attendance strptime_iso env_ok db_empty batch_unknown)
    = JsonBulk 201 "Processed 0 attendance records" created errs
    /\ errs = ["Student 999 not found";
               "Error processing student unknown: 'student_id'"].
Proof.
  eexists. eexists. split; [reflexivity|].
  destruct (bulk_error_messages strptime_iso env_ok db_empty batch_unknown
              _ _ _ _ _ eq_refl) as (cid & d & entries & Hpre & Herrs).
  injection Hpre as <- <- <-. exact Herrs.
Defined.



Lemma bulk_frame_sample :
  filter (elsewhere 5 day1)
         (attendances (fst (create_bulk_attendance strptime_iso env_later db_two batch1)))
  = [row2].
Proof.
  destruct (bulk_frame strptime_iso env_later db_two batch1 5 day1 entries1 eq_refl)
    as [Helse _].
  exact Helse.
Defined.

Lemma bulk_records_every_student_sample :
  exists r,
    first (filter_by_triple 1 5 day1)
          (attendances (fst (create_bulk_attendance strptime_iso env_ok db_empty batch1)))
    = Some r
    /\ present r = true /\ notes r = None.
Proof.
  destruct (bulk_records_every_student strptime_iso env_ok db_empty batch1 _ _
              5 day1 entries1 (EObject (Some 1) (Some true) None) 1
              eq_refl eq_refl eq_refl (or_introl eq_refl) eq_refl)
    as (r & p & n & Hr & Hl & Hp & Hn & _).
  exists r. injection Hl as <- <-. split; [exact Hr|]. split; [exact Hp|exact Hn].
Defined.

Lemma bulk_nothing_to_store_sample :
  attendances (fst (create_bulk_attendance strptime_iso env_ok db_one batch_unknown))
  = [row1].
Proof.
  destruct (bulk_nothing_to_store strptime_iso env_ok db_one batch_unknown 5 day1
              [EObject (Some 999) None None; EObject None (Some true) None]
              eq_refl eq_refl eq_refl) as [Hrows _].
  exact Hrows.
Defined.

Lemma bulk_failure_unchanged_sample :
  fst (create_bulk_attendance strptime_iso env_fail db_one batch_late) = db_one.
Proof.
  eapply (bulk_failure_unchanged strptime_iso env_fail db_one batch_late).
  - reflexivity.
  - discriminate.
Defined.

Lemma bulk_then_list_sample :
  exists r,
    get_attendances strptime_iso
      (fst (create_bulk_attendance strptime_iso env_later db_one batch_late))
      (mkArgs (Some 1) (Some 5) (Some "2024-03-01"))
    = JsonList 200 [to_dict r]
    /\ present r = false /\ notes r = Some "late".
Proof.
  assert (Hu : unique_triples (attendances db_one)).
  { intros s c dd. unfold count_triple. simpl.
    destruct (filter_by_triple s c dd row1); simpl; lia. }
  destruct (bulk_then_list strptime_iso env_later db_one batch_late _ _ 5
              "2024-03-01" day1 [EObject (Some 1) (Some false) (Some "late")]
              (EObject (Some 1) (Some false) (Some "late")) 1
              Hu eq_refl eq_refl eq_refl eq_refl eq_refl eq_refl
              (or_introl eq_refl) eq_refl)
    as (r & p & n & Hlist & _ & Hl & Hp & Hn); try discriminate.
  exists r. injection Hl as <- <-. split; [exact Hlist|]. split; [exact Hp|exact Hn].
Defined.
